(** * Jurisdiction resolution in the CourtListener MCP server

    A shallow embedding of the court directory (acquisition, categorisation,
    caching), of the two jurisdiction resolvers of the repository (the live,
    cache-backed one and the resource-backed one) and of the suggestion
    engine, followed by the properties established about them.

    Strings are sequences of code units below 256; the JavaScript string
    primitives the code relies on are written out for that range. *)

From Stdlib Require Import String Ascii List ZArith Lia Bool Arith.
Import ListNotations.
Open Scope string_scope.
Open Scope list_scope.
Open Scope nat_scope.

(* ------------------------------------------------------------------ *)
(** ** JavaScript string primitives used by the source *)

Module JS.

Definition code (c : ascii) : nat := nat_of_ascii c.

(** WhiteSpace and LineTerminator code units below 256: what [\s] and
    [String.prototype.trim] recognise. *)
Definition isWhiteSpace (c : ascii) : bool :=
  let n := code c in
  ((9 <=? n) && (n <=? 13)) || (n =? 32) || (n =? 160).

Definition isUpper (c : ascii) : bool :=
  let n := code c in
  ((65 <=? n) && (n <=? 90))
  || ((192 <=? n) && (n <=? 222) && negb (n =? 215)).

Definition toLowerChar (c : ascii) : ascii :=
  if isUpper c then ascii_of_nat (code c + 32) else c.

(** [s.toLowerCase()] *)
Fixpoint toLowerCase (s : string) : string :=
  match s with
  | EmptyString => EmptyString
  | String c r => String (toLowerChar c) (toLowerCase r)
  end.

(** [s.startsWith(p)] *)
Fixpoint startsWith (s p : string) {struct p} : bool :=
  match p, s with
  | EmptyString, _ => true
  | String _ _, EmptyString => false
  | String b p', String a s' => Ascii.eqb a b && startsWith s' p'
  end.

(** [s.includes(sub)] *)
Fixpoint includes (s sub : string) : bool :=
  startsWith s sub
  || match s with
     | EmptyString => false
     | String _ r => includes r sub
     end.

(** The character class of the regular expression [/[-_\s]/g]. *)
Definition isSeparator (c : ascii) : bool :=
  Ascii.eqb c "-" || Ascii.eqb c "_" || isWhiteSpace c.

(** [s.replace(/[-_\s]/g, "")] *)
Fixpoint stripSeparators (s : string) : string :=
  match s with
  | EmptyString => EmptyString
  | String c r =>
      if isSeparator c then stripSeparators r
      else String c (stripSeparators r)
  end.

Fixpoint trimStart (s : string) : string :=
  match s with
  | EmptyString => EmptyString
  | String c r => if isWhiteSpace c then trimStart r else s
  end.

Fixpoint trimEnd (s : string) : string :=
  match s with
  | EmptyString => EmptyString
  | String c r =>
      match trimEnd r with
      | EmptyString => if isWhiteSpace c then EmptyString else String c EmptyString
      | r' => String c r'
      end
  end.

(** [s.trim()] *)
Definition trim (s : string) : string := trimEnd (trimStart s).

(** [s.split(",")]: never empty, the empty string splits into [[""]]. *)
Fixpoint splitComma (s : string) : list string :=
  match s with
  | EmptyString => [EmptyString]
  | String c r =>
      if Ascii.eqb c "," then EmptyString :: splitComma r
      else match splitComma r with
           | [] => [String c EmptyString]
           | p :: ps => String c p :: ps
           end
  end.

(** Truthiness of a string value, and of a possibly missing one. *)
Definition truthy (s : string) : bool := negb (String.eqb s "").

Definition truthyField (f : option string) : bool :=
  match f with
  | Some s => truthy s
  | None => false
  end.

(** [a || b] on possibly missing strings, with a string fallback. *)
Definition orElse (f : option string) (d : string) : string :=
  match f with
  | Some s => if truthy s then s else d
  | None => d
  end.

(** [arr.slice(0, n)] *)
Definition slice0 {A} (n : nat) (l : list A) : list A := firstn n l.

(** [[...new Set(arr)]]: first occurrences, in order. *)
Fixpoint dedupFrom (seen l : list string) : list string :=
  match l with
  | [] => []
  | x :: r =>
      if existsb (String.eqb x) seen then dedupFrom seen r
      else x :: dedupFrom (x :: seen) r
  end.

Definition uniq (l : list string) : list string := dedupFrom [] l.

(** Own-property lookup in an object literal used as a map; later
    assignments to a key replace its value in place. *)
Fixpoint lookup {V} (k : string) (o : list (string * V)) : option V :=
  match o with
  | [] => None
  | (k', v) :: r => if String.eqb k' k then Some v else lookup k r
  end.

Fixpoint assign {V} (k : string) (v : V) (o : list (string * V))
  : list (string * V) :=
  match o with
  | [] => [(k, v)]
  | (k', v') :: r =>
      if String.eqb k' k then (k', v) :: r else (k', v') :: assign k v r
  end.

(** The property names every plain object inherits from [Object.prototype]:
    a lookup of one of them on an object that does not own it yields a
    truthy value that is not an array. *)
Definition inheritedKeys : list string :=
  [ "constructor"; "__proto__"; "hasOwnProperty"; "isPrototypeOf";
    "propertyIsEnumerable"; "toLocaleString"; "toString"; "valueOf";
    "__defineGetter__"; "__defineSetter__"; "__lookupGetter__";
    "__lookupSetter__" ].

Definition inheritedKey (k : string) : bool :=
  existsb (String.eqb k) inheritedKeys.

End JS.

(* ------------------------------------------------------------------ *)
(** ** Data model *)

(** A raw court object of a listing page ([Record<string, any>]): the fields
    the categoriser reads, each a string or missing ([undefined]/[null]). *)
Record RawCourt := {
  raw_id : option string;
  raw_short_name : option string;
  raw_full_name : option string;
  raw_jurisdiction : option string;
  raw_start_date : option string;
  raw_end_date : option string
}.

Record CourtInfo := {
  id : string;
  short_name : string;
  full_name : string;
  jurisdiction : string;
  start_date : option string;
  end_date : option string
}.

Record CourtCache := {
  federal : list CourtInfo;
  state : list CourtInfo;
  federal_bankruptcy : list CourtInfo;
  military : list CourtInfo;
  special : list CourtInfo;
  all : list CourtInfo
}.

Inductive Category := FEDERAL | STATE | FEDERAL_BANKRUPTCY | MILITARY | SPECIAL.

Definition ids (l : list CourtInfo) : list string := map id l.

Definition knownId (courts : list CourtInfo) (s : string) : bool :=
  existsb (fun c => String.eqb (id c) s) courts.

(* ------------------------------------------------------------------ *)
(** ** Categoriser ([categorizeCourtsByJurisdiction]) *)

Definition emptyCache : CourtCache :=
  {| federal := []; state := []; federal_bankruptcy := [];
     military := []; special := []; all := [] |}.

(** [!court.id || !court.jurisdiction] is false. *)
Definition usable (court : RawCourt) : bool :=
  JS.truthyField (raw_id court) && JS.truthyField (raw_jurisdiction court).

Definition courtInfoOf (court : RawCourt) : CourtInfo :=
  let i := JS.orElse (raw_id court) "" in
  {| id := i;
     short_name := JS.orElse (raw_short_name court) i;
     full_name := JS.orElse (raw_full_name court)
                    (JS.orElse (raw_short_name court) i);
     jurisdiction := JS.orElse (raw_jurisdiction court) "";
     start_date := raw_start_date court;
     end_date := raw_end_date court |}.

(** The [switch (court.jurisdiction)]; "FS" and the default branch both
    push to [special]. *)
Definition bucket (jur : string) : Category :=
  if String.eqb jur "F" then FEDERAL
  else if String.eqb jur "ST" then STATE
  else if String.eqb jur "FB" then FEDERAL_BANKRUPTCY
  else if String.eqb jur "MA" then MILITARY
  else if String.eqb jur "FS" then SPECIAL
  else SPECIAL.

Definition push {A} (l : list A) (x : A) : list A := l ++ [x].

Definition pushCategory (k : Category) (d : CourtCache) (c : CourtInfo)
  : CourtCache :=
  match k with
  | FEDERAL =>
      {| federal := push (federal d) c; state := state d;
         federal_bankruptcy := federal_bankruptcy d; military := military d;
         special := special d; all := all d |}
  | STATE =>
      {| federal := federal d; state := push (state d) c;
         federal_bankruptcy := federal_bankruptcy d; military := military d;
         special := special d; all := all d |}
  | FEDERAL_BANKRUPTCY =>
      {| federal := federal d; state := state d;
         federal_bankruptcy := push (federal_bankruptcy d) c;
         military := military d; special := special d; all := all d |}
  | MILITARY =>
      {| federal := federal d; state := state d;
         federal_bankruptcy := federal_bankruptcy d;
         military := push (military d) c; special := special d; all := all d |}
  | SPECIAL =>
      {| federal := federal d; state := state d;
         federal_bankruptcy := federal_bankruptcy d; military := military d;
         special := push (special d) c; all := all d |}
  end.

Definition pushAll (d : CourtCache) (c : CourtInfo) : CourtCache :=
  {| federal := federal d; state := state d;
     federal_bankruptcy := federal_bankruptcy d; military := military d;
     special := special d; all := push (all d) c |}.

(** The body of the [forEach] callback, acting on the accumulator object. *)
Definition categorizeStep (d : CourtCache) (court : RawCourt) : CourtCache :=
  if negb (usable court) then d
  else
    let courtInfo := courtInfoOf court in
    pushCategory (bucket (jurisdiction courtInfo)) (pushAll d courtInfo) courtInfo.

Definition categorizeCourtsByJurisdiction (courts : list RawCourt) : CourtCache :=
  fold_left categorizeStep courts emptyCache.

Definition inCategory (k : Category) (c : CourtInfo) : bool :=
  match k, bucket (jurisdiction c) with
  | FEDERAL, FEDERAL | STATE, STATE | FEDERAL_BANKRUPTCY, FEDERAL_BANKRUPTCY
  | MILITARY, MILITARY | SPECIAL, SPECIAL => true
  | _, _ => false
  end.

Definition category (k : Category) (d : CourtCache) : list CourtInfo :=
  match k with
  | FEDERAL => federal d
  | STATE => state d
  | FEDERAL_BANKRUPTCY => federal_bankruptcy d
  | MILITARY => military d
  | SPECIAL => special d
  end.

(** The five counts printed after categorisation, with the total. *)
Definition categoryCounts (d : CourtCache) : list nat :=
  [length (federal d); length (state d); length (federal_bankruptcy d);
   length (military d); length (special d); length (all d)].

(* ------------------------------------------------------------------ *)
(** ** The state abbreviation table

    [stateAbbreviations] is declared twice in the source, in the live
    server's [findCourtsByState] and in the resource generator's; the two
    copies are identical. *)

Definition stateAbbreviations : list (string * list string) :=
  [ ("california", ["ca"; "cal"]);
    ("newyork", ["ny"]);
    ("new-york", ["ny"]);
    ("texas", ["tx"; "tex"]);
    ("florida", ["fl"; "fla"]);
    ("illinois", ["il"; "ill"]);
    ("ohio", ["oh"]);
    ("pennsylvania", ["pa"]);
    ("michigan", ["mi"]);
    ("georgia", ["ga"]);
    ("northcarolina", ["nc"]);
    ("north-carolina", ["nc"]);
    ("newjersey", ["nj"]);
    ("new-jersey", ["nj"]);
    ("virginia", ["va"]);
    ("washington", ["wa"]);
    ("arizona", ["az"]);
    ("massachusetts", ["ma"]);
    ("tennessee", ["tn"; "tenn"]);
    ("indiana", ["in"]);
    ("missouri", ["mo"]);
    ("maryland", ["md"]);
    ("wisconsin", ["wi"]);
    ("colorado", ["co"]);
    ("minnesota", ["mn"]);
    ("southcarolina", ["sc"]);
    ("south-carolina", ["sc"]);
    ("alabama", ["al"]);
    ("louisiana", ["la"]);
    ("kentucky", ["ky"]);
    ("oregon", ["or"]);
    ("oklahoma", ["ok"]);
    ("connecticut", ["ct"; "conn"]);
    ("utah", ["ut"]);
    ("iowa", ["ia"]);
    ("nevada", ["nv"]);
    ("arkansas", ["ar"]);
    ("mississippi", ["ms"]);
    ("kansas", ["ks"]);
    ("newmexico", ["nm"]);
    ("new-mexico", ["nm"]);
    ("nebraska", ["ne"]);
    ("westvirginia", ["wv"]);
    ("west-virginia", ["wv"]);
    ("idaho", ["id"]);
    ("hawaii", ["hi"]);
    ("newhampshire", ["nh"]);
    ("new-hampshire", ["nh"]);
    ("maine", ["me"]);
    ("montana", ["mt"]);
    ("rhodeisland", ["ri"]);
    ("rhode-island", ["ri"]);
    ("delaware", ["de"]);
    ("southdakota", ["sd"]);
    ("south-dakota", ["sd"]);
    ("northdakota", ["nd"]);
    ("north-dakota", ["nd"]);
    ("alaska", ["ak"]);
    ("vermont", ["vt"]);
    ("wyoming", ["wy"]) ].

(** [stateAbbreviations[stateName] ||
     stateAbbreviations[stateName.replace(/[-_\s]/g, "")] || [stateName]].
    [None] stands for a value inherited from [Object.prototype], on which
    [.some] is not a function. *)
Definition stateCodes (stateName : string) : option (list string) :=
  match JS.lookup stateName stateAbbreviations with
  | Some codes => Some codes
  | None =>
      if JS.inheritedKey stateName then None
      else
        let collapsed := JS.stripSeparators stateName in
        match JS.lookup collapsed stateAbbreviations with
        | Some codes => Some codes
        | None => if JS.inheritedKey collapsed then None else Some [stateName]
        end
  end.

(** The filter callback shared by every state lookup:
    [stateCodes.some((code) => court.id.toLowerCase().startsWith(code))]. *)
Definition idHasCode (codes : list string) (court : CourtInfo) : bool :=
  let courtId := JS.toLowerCase (id court) in
  existsb (fun code => JS.startsWith courtId code) codes.

(** Outcome of a resolver call. *)
Inductive Resolution :=
| Resolved (courtIds : list string)
| Failed (message : string)
| TypeError
| Foreign.

Definition unrecognized (jurisdiction : string) : Resolution :=
  Failed ("Unrecognized jurisdiction: " ++ jurisdiction).

(* ------------------------------------------------------------------ *)
(** ** The live, cache-backed server *)

Module Live.

(** One response of [axiosInstance.get("/courts/", ...)]: [results] and the
    truthiness of [next]. *)
Record Page := { results : list RawCourt; next : bool }.

(** The listing endpoint, by page number; [None] when the request (or the
    use of its data) raises. *)
Definition Endpoint := nat -> option Page.

Inductive Outcome :=
| Returned (allCourts : list RawCourt)
| Raised
| Running.

(** The [while (hasMore && allCourts.length < 4000)] loop; [Running] when
    the given number of iterations did not leave it. *)
Fixpoint paginate (fuel : nat) (api : Endpoint) (allCourts : list RawCourt)
  (page : nat) (hasMore : bool) : Outcome :=
  match fuel with
  | 0 => Running
  | S fuel' =>
      if hasMore && (length allCourts <? 4000) then
        match api page with
        | None => Raised
        | Some response =>
            paginate fuel' api (allCourts ++ results response) (page + 1)
              (next response)
        end
      else Returned allCourts
  end.

(** [discoverCourts]: the loop inside [try], the [catch] returning [[]];
    [None] when the loop is still running. *)
Definition discoverCourts (fuel : nat) (api : Endpoint) : option (list RawCourt) :=
  match paginate fuel api [] 1 true with
  | Returned allCourts => Some allCourts
  | Raised => Some []
  | Running => None
  end.

Record Server := { courtCache : option CourtCache; cacheExpiry : option Z }.

Definition CACHE_DURATION : Z := 15 * 24 * 60 * 60 * 1000.

(** [!this.courtCache || !this.cacheExpiry || now > this.cacheExpiry] *)
Definition needsRefresh (s : Server) (now : Z) : bool :=
  match courtCache s, cacheExpiry s with
  | Some _, Some expiry => Z.ltb expiry now
  | _, _ => true
  end.

(** What [ensureCourtCache] stores once its acquisition has resolved. *)
Definition refreshed (now : Z) (courts : list RawCourt) : Server :=
  {| courtCache := Some (categorizeCourtsByJurisdiction courts);
     cacheExpiry := Some (now + CACHE_DURATION)%Z |}.

Definition ensureCourtCache (fuel : nat) (api : Endpoint) (now : Z) (s : Server)
  : option Server :=
  if needsRefresh s now then
    match discoverCourts fuel api with
    | Some courts => Some (refreshed now courts)
    | None => None
    end
  else Some s.

(** *** Interleaved callers of [ensureCourtCache]

    A caller runs from its entry to its [await] without interruption: it
    reads the clock, tests the cache and, when a refresh is needed, starts
    its own [discoverCourts]. It resumes later, when that acquisition has
    resolved, and stores the result. *)
Record System := {
  server : Server;
  acquisitions : nat;
  inflight : list Z
}.

Inductive Event :=
| Enter (now : Z)
| Resume (k : nat) (courts : list RawCourt).

Fixpoint removeNth {A} (k : nat) (l : list A) : list A :=
  match k, l with
  | _, [] => []
  | 0, _ :: r => r
  | S k', x :: r => x :: removeNth k' r
  end.

Definition step (sys : System) (e : Event) : System :=
  match e with
  | Enter now =>
      if needsRefresh (server sys) now then
        {| server := server sys;
           acquisitions := S (acquisitions sys);
           inflight := inflight sys ++ [now] |}
      else sys
  | Resume k courts =>
      match nth_error (inflight sys) k with
      | Some now =>
          {| server := refreshed now courts;
             acquisitions := acquisitions sys;
             inflight := removeNth k (inflight sys) |}
      | None => sys
      end
  end.

Definition run (sys : System) (trace : list Event) : System :=
  fold_left step trace sys.

Definition idle (s : Server) : System :=
  {| server := s; acquisitions := 0; inflight := [] |}.

(** *** State lookup, suggestions, resolution *)

(** [findCourtsByState]: filters [this.courtCache.state]. [None] is the
    [TypeError] of calling [.some] on an inherited value, raised by the
    filter callback on the first court it visits. *)
Definition findCourtsByState (cache : option CourtCache) (stateName : string)
  : option (list string) :=
  match cache with
  | None => Some []
  | Some courtCache =>
      match stateCodes stateName with
      | Some codes => Some (ids (filter (idHasCode codes) (state courtCache)))
      | None =>
          match state courtCache with
          | [] => Some []
          | _ :: _ => None
          end
      end
  end.

Definition nameIncludes (normalized : string) (court : CourtInfo) : bool :=
  JS.includes (JS.toLowerCase (short_name court)) normalized
  || JS.includes (JS.toLowerCase (full_name court)) normalized.

Definition pushIf (cond : bool) (suggestions : list string) (s : string)
  : list string :=
  if cond then push suggestions s else suggestions.

(** The fixed keyword triggers, in source order. *)
Definition keywordSuggestions (normalized : string) (suggestions : list string)
  : list string :=
  let has := JS.includes normalized in
  let s1 := pushIf (has "fed") suggestions "federal" in
  let s2 := pushIf (has "state") s1 "state" in
  let s3 := pushIf (has "supreme") s2 "scotus" in
  let s4 := pushIf (has "ca" && negb (has "cal")) s3 "california" in
  let s5 := pushIf (has "ny") s4 "new-york" in
  let s6 := pushIf (has "south" && has "carolina") s5 "south-carolina" in
  let s7 := pushIf (has "north" && has "carolina") s6 "north-carolina" in
  let s8 := pushIf (has "south" && has "dakota") s7 "south-dakota" in
  let s9 := pushIf (has "north" && has "dakota") s8 "north-dakota" in
  let s10 := pushIf (has "new" && has "jersey") s9 "new-jersey" in
  let s11 := pushIf (has "new" && has "mexico") s10 "new-mexico" in
  let s12 := pushIf (has "west" && has "virginia") s11 "west-virginia" in
  let s13 := pushIf (has "new" && has "hampshire") s12 "new-hampshire" in
  pushIf (has "rhode" && has "island") s13 "rhode-island".

Definition suggestSimilarJurisdictions (cache : option CourtCache)
  (input : string) : list string :=
  match cache with
  | None => []
  | Some courtCache =>
      let normalized := JS.toLowerCase input in
      let suggestions :=
        ids (filter (nameIncludes normalized)
               (JS.slice0 100 (all courtCache))) in
      JS.slice0 5 (JS.uniq (keywordSuggestions normalized suggestions))
  end.

(** The [switch (normalized)] over the sentinel keywords. *)
Definition sentinel (courtCache : CourtCache) (normalized : string)
  : option (list string) :=
  if String.eqb normalized "all" then Some []
  else if String.eqb normalized "federal" then Some (ids (federal courtCache))
  else if String.eqb normalized "state" then Some (ids (state courtCache))
  else if String.eqb normalized "federalbankruptcy" then
    Some (ids (federal_bankruptcy courtCache))
  else if String.eqb normalized "bankruptcy" then
    Some (ids (federal_bankruptcy courtCache))
  else if String.eqb normalized "military" then Some (ids (military courtCache))
  else if String.eqb normalized "special" then Some (ids (special courtCache))
  else None.

(** The state strategy and what follows it. *)
Definition resolveByStateOrName (courtCache : CourtCache)
  (jurisdiction normalized lowerOriginal : string) : Resolution :=
  match findCourtsByState (Some courtCache) lowerOriginal with
  | None => TypeError
  | Some first =>
      let second :=
        match first with
        | [] => findCourtsByState (Some courtCache) normalized
        | _ :: _ => Some first
        end in
      match second with
      | None => TypeError
      | Some (x :: r) => Resolved (x :: r)
      | Some [] =>
          match filter (nameIncludes normalized) (all courtCache) with
          | [] => unrecognized jurisdiction
          | partialMatches => Resolved (ids (JS.slice0 50 partialMatches))
          end
      end
  end.

(** The body of [resolveJurisdiction] once [ensureCourtCache] has run and
    [this.courtCache] holds a directory. *)
Definition resolveAgainst (courtCache : CourtCache) (jurisdiction : string)
  : Resolution :=
  let normalized := JS.stripSeparators (JS.toLowerCase jurisdiction) in
  let lowerOriginal := JS.toLowerCase jurisdiction in
  match sentinel courtCache normalized with
  | Some courtIds => Resolved courtIds
  | None =>
      if JS.includes jurisdiction "," then
        let courtIds := map JS.trim (JS.splitComma jurisdiction) in
        Resolved (filter (knownId (all courtCache)) courtIds)
      else if knownId (all courtCache) jurisdiction then Resolved [jurisdiction]
      else resolveByStateOrName courtCache jurisdiction normalized lowerOriginal
  end.

(** [resolveJurisdiction]: the cache is ensured first; the result comes with
    the server state the call leaves behind. *)
Definition resolveJurisdiction (fuel : nat) (api : Endpoint) (now : Z)
  (s : Server) (jurisdiction : string) : option (Server * Resolution) :=
  match ensureCourtCache fuel api now s with
  | None => None
  | Some s' =>
      match courtCache s' with
      | None => Some (s', Failed "Court cache not available")
      | Some courtCache => Some (s', resolveAgainst courtCache jurisdiction)
      end
  end.

End Live.

(* ------------------------------------------------------------------ *)
(** ** The resource generator *)

Module Generator.

(** [findCourtsByState(stateName, courts)]: filters [courts.all]. [None] is
    the [TypeError] of calling [.some] on an inherited value. *)
Definition findCourtsByState (stateName : string) (courts : CourtCache)
  : option (list CourtInfo) :=
  match stateCodes stateName with
  | Some codes => Some (filter (idHasCode codes) (all courts))
  | None =>
      match all courts with
      | [] => Some []
      | _ :: _ => None
      end
  end.

Definition stateVariations : list (list string * list string) :=
  [ (["california"; "ca"; "calif"], ["ca"; "cal"]);
    (["new-york"; "newyork"; "ny"], ["ny"]);
    (["texas"; "tx"; "tex"], ["tx"; "tex"]);
    (["florida"; "fl"; "fla"], ["fl"; "fla"]);
    (["south-carolina"; "southcarolina"; "sc"], ["sc"]);
    (["north-carolina"; "northcarolina"; "nc"], ["nc"]);
    (["new-jersey"; "newjersey"; "nj"], ["nj"]);
    (["new-mexico"; "newmexico"; "nm"], ["nm"]);
    (["west-virginia"; "westvirginia"; "wv"], ["wv"]);
    (["new-hampshire"; "newhampshire"; "nh"], ["nh"]);
    (["rhode-island"; "rhodeisland"; "ri"], ["ri"]);
    (["south-dakota"; "southdakota"; "sd"], ["sd"]);
    (["north-dakota"; "northdakota"; "nd"], ["nd"]);
    (["illinois"; "il"; "ill"], ["il"; "ill"]);
    (["ohio"; "oh"], ["oh"]);
    (["pennsylvania"; "pa"], ["pa"]);
    (["michigan"; "mi"], ["mi"]);
    (["georgia"; "ga"], ["ga"]);
    (["virginia"; "va"], ["va"]);
    (["washington"; "wa"], ["wa"]);
    (["arizona"; "az"], ["az"]);
    (["massachusetts"; "ma"], ["ma"]);
    (["tennessee"; "tn"; "tenn"], ["tn"; "tenn"]);
    (["indiana"; "in"], ["in"]);
    (["missouri"; "mo"], ["mo"]);
    (["maryland"; "md"], ["md"]);
    (["wisconsin"; "wi"], ["wi"]);
    (["colorado"; "co"], ["co"]);
    (["minnesota"; "mn"], ["mn"]);
    (["alabama"; "al"], ["al"]);
    (["louisiana"; "la"], ["la"]);
    (["kentucky"; "ky"], ["ky"]);
    (["oregon"; "or"], ["or"]);
    (["oklahoma"; "ok"], ["ok"]);
    (["connecticut"; "ct"; "conn"], ["ct"; "conn"]);
    (["utah"; "ut"], ["ut"]);
    (["iowa"; "ia"], ["ia"]);
    (["nevada"; "nv"], ["nv"]);
    (["arkansas"; "ar"], ["ar"]);
    (["mississippi"; "ms"], ["ms"]);
    (["kansas"; "ks"], ["ks"]);
    (["nebraska"; "ne"], ["ne"]);
    (["idaho"; "id"], ["id"]);
    (["hawaii"; "hi"], ["hi"]);
    (["maine"; "me"], ["me"]);
    (["montana"; "mt"], ["mt"]);
    (["delaware"; "de"], ["de"]);
    (["alaska"; "ak"], ["ak"]);
    (["vermont"; "vt"], ["vt"]);
    (["wyoming"; "wy"], ["wy"]) ].

Definition Mappings := list (string * list string).

(** The object literal [mappings] starts from. *)
Definition categoryMappings (courts : CourtCache) : Mappings :=
  [ ("all", []);
    ("federal", ids (federal courts));
    ("state", ids (state courts));
    ("bankruptcy", ids (federal_bankruptcy courts));
    ("federal-bankruptcy", ids (federal_bankruptcy courts));
    ("military", ids (military courts));
    ("special", ids (special courts)) ].

(** One round of [for (const { names, codes } of stateVariations)]. *)
Definition addVariation (courts : CourtCache) (mappings : Mappings)
  (variation : list string * list string) : Mappings :=
  let (names, codes) := variation in
  let stateCourts := ids (filter (idHasCode codes) (all courts)) in
  fold_left (fun m name => JS.assign name stateCourts m) names mappings.

(** The [mappings] member of the file [generateMappingResources] writes to
    [jurisdictions/court-mappings.json]. *)
Definition generateMappingResources (courts : CourtCache) : Mappings :=
  fold_left (addVariation courts) stateVariations (categoryMappings courts).

Definition sampleCourt (i s f j : string) : RawCourt :=
  {| raw_id := Some i; raw_short_name := Some s; raw_full_name := Some f;
     raw_jurisdiction := Some j; raw_start_date := None; raw_end_date := None |}.

Definition sampleAllCourts : list RawCourt :=
  [ sampleCourt "scotus" "U.S." "Supreme Court of the United States" "F";
    sampleCourt "ca9" "9th Cir."
      "United States Court of Appeals for the Ninth Circuit" "F";
    sampleCourt "ca2" "2nd Cir."
      "United States Court of Appeals for the Second Circuit" "F";
    sampleCourt "cacd" "C.D. Cal."
      "United States District Court for the Central District of California" "F";
    sampleCourt "nysd" "S.D.N.Y."
      "United States District Court for the Southern District of New York" "F";
    sampleCourt "cal" "Cal." "Supreme Court of California" "ST";
    sampleCourt "ny" "N.Y." "New York Court of Appeals" "ST";
    sampleCourt "tex" "Tex." "Supreme Court of Texas" "ST";
    sampleCourt "fla" "Fla." "Supreme Court of Florida" "ST";
    sampleCourt "sc" "S.C." "Supreme Court of South Carolina" "ST";
    sampleCourt "cacb" "Bankr. C.D. Cal."
      "United States Bankruptcy Court for the Central District of California" "FB";
    sampleCourt "nysb" "Bankr. S.D.N.Y."
      "United States Bankruptcy Court for the Southern District of New York" "FB";
    sampleCourt "asbca" "A.S.B.C.A." "Armed Services Board of Contract Appeals" "MA";
    sampleCourt "tax" "T.C." "United States Tax Court" "FS" ].

(** [createSampleCourtsData] *)
Definition createSampleCourtsData : CourtCache :=
  categorizeCourtsByJurisdiction sampleAllCourts.

End Generator.

(* ------------------------------------------------------------------ *)
(** ** The resource-backed resolver

    The court-mappings resource is what [generateMappingResources] wrote;
    reading it back through [JSON.parse] gives the same keys, in the same
    order, with the same arrays. [None] is a resource that cannot be read
    or parsed, or has no [mappings] member. *)

Module CourtResourceManager.

Definition CourtMappings := option Generator.Mappings.

(** A value read out of the parsed object. *)
Inductive Value :=
| Arr (courtIds : list string)
| Inherited.

(** [mappings.mappings[lowerJurisdiction] || []] inside [try], [[]] from
    the [catch]. *)
Definition resolveJurisdiction (resource : CourtMappings) (jurisdiction : string)
  : Value :=
  match resource with
  | None => Arr []
  | Some mappings =>
      let lowerJurisdiction := JS.toLowerCase jurisdiction in
      match JS.lookup lowerJurisdiction mappings with
      | Some courtIds => Arr courtIds
      | None => if JS.inheritedKey lowerJurisdiction then Inherited else Arr []
      end
  end.

Definition suggestSimilarJurisdictions (resource : CourtMappings)
  (input : string) : list string :=
  match resource with
  | None => []
  | Some mappings =>
      let suggestions :=
        filter (fun key => JS.includes key (JS.toLowerCase input))
          (map fst mappings) in
      JS.slice0 5 suggestions
  end.

End CourtResourceManager.

Module ResourceServer.

(** The server's [resolveJurisdiction]: an empty array from the manager is
    turned into the error. An inherited value has a [length] other than 0
    and is handed back as it is. *)
Definition resolveJurisdiction (resource : CourtResourceManager.CourtMappings)
  (jurisdiction : string) : Resolution :=
  match CourtResourceManager.resolveJurisdiction resource jurisdiction with
  | CourtResourceManager.Arr [] => unrecognized jurisdiction
  | CourtResourceManager.Arr courtIds => Resolved courtIds
  | CourtResourceManager.Inherited => Foreign
  end.

Definition suggestSimilarJurisdictions
  (resource : CourtResourceManager.CourtMappings) (input : string)
  : list string :=
  CourtResourceManager.suggestSimilarJurisdictions resource input.

End ResourceServer.

(* ------------------------------------------------------------------ *)
(** ** Notions used in the statements *)

Definition categories : list Category :=
  [FEDERAL; STATE; FEDERAL_BANKRUPTCY; MILITARY; SPECIAL].

(** The vocabulary of the resolver's [switch (normalized)]. *)
Definition sentinelKeywords : list string :=
  [ "all"; "federal"; "state"; "federalbankruptcy"; "bankruptcy";
    "military"; "special" ].

(** [jurisdiction.toLowerCase().replace(/[-_\s]/g, "")] *)
Definition normalize (jurisdiction : string) : string :=
  JS.stripSeparators (JS.toLowerCase jurisdiction).

Definition sample : CourtCache := Generator.createSampleCourtsData.

(** An endpoint that is down: every request raises. *)
Definition downEndpoint : Live.Endpoint := fun _ => None.

(** An endpoint that answers every page with no record and a [next] link. *)
Definition stalledEndpoint : Live.Endpoint :=
  fun _ => Some {| Live.results := []; Live.next := true |}.

(** An endpoint that serves 150 records on every page and never ends. *)
Definition widePage : list RawCourt :=
  repeat (Generator.sampleCourt "ca9" "9th Cir." "Ninth Circuit" "F") 150.

Definition wideEndpoint : Live.Endpoint :=
  fun _ => Some {| Live.results := widePage; Live.next := true |}.

(** Two good pages, then a failure. *)
Definition flakyEndpoint : Live.Endpoint :=
  fun page =>
    if page <=? 2 then
      Some {| Live.results := Generator.sampleAllCourts; Live.next := true |}
    else None.

(** A server whose snapshot, the sample directory, expired at time 0. *)
Definition staleServer : Live.Server :=
  {| Live.courtCache := Some sample; Live.cacheExpiry := Some 0%Z |}.

(** A server that has not built its cache yet. *)
Definition coldServer : Live.Server :=
  {| Live.courtCache := None; Live.cacheExpiry := None |}.

(** What a refresh at [now] leaves when the acquisition failed. *)
Definition emptied (now : Z) : Live.Server :=
  {| Live.courtCache := Some emptyCache;
     Live.cacheExpiry := Some (now + Live.CACHE_DURATION)%Z |}.

(* ------------------------------------------------------------------ *)
(** ** Helpers shared by both servers, and the callers of the resolvers *)

Module Tools.

(** [arr.join(sep)] on an array of strings. *)
Definition join (sep : string) (arr : list string) : string :=
  String.concat sep arr.

(** [s.substring(0, n)] for a non-negative integer [n]. *)
Fixpoint substring0 (n : nat) (s : string) : string :=
  match n, s with
  | 0, _ => EmptyString
  | S _, EmptyString => EmptyString
  | S n', String c r => String c (substring0 n' r)
  end.

Inductive Validated :=
| Keywords (validKeywords : list string)
| Invalid (message : string).

(** The filter callback of [validateSearchKeywords], on a string. *)
Definition validKeyword (keyword : string) : bool :=
  (0 <? String.length (JS.trim keyword))
  && (String.length keyword <=? 100).

(** [validateSearchKeywords], on an array of strings. *)
Definition validateSearchKeywords (keywords : list string) : Validated :=
  if List.length keywords =? 0 then
    Invalid "search_keywords must be a non-empty array of legal terms"
  else if 10 <? List.length keywords then
    Invalid "Maximum 10 search keywords allowed for optimal performance"
  else
    let validKeywords := filter validKeyword keywords in
    if List.length validKeywords =? 0 then
      Invalid "No valid search keywords provided. Keywords must be non-empty strings."
    else Keywords (map JS.trim validKeywords).

Definition truncationNotice : string :=
  "... [TRUNCATED - use get_case_details with include_full_text for complete text]".

(** [truncateText(text, maxLength)]; [None] is [undefined]. *)
Definition truncateText (text : option string) (maxLength : nat) : string :=
  match text with
  | None => EmptyString
  | Some t =>
      if negb (JS.truthy t) || (String.length t <=? maxLength) then t
      else (substring0 maxLength t ++ truncationNotice)%string
  end.

Definition commonLegalTerms : list string :=
  [ "breach"; "negligence"; "contract"; "warranty"; "consumer"; "damages";
    "liability" ].

(** [extractLegalConcepts] *)
Definition extractLegalConcepts (caseName : string) : list string :=
  filter (fun term => JS.includes (JS.toLowerCase caseName) term)
    commonLegalTerms.

(** The [court] member of the live server's search parameters,
    [...(targetCourts.length > 0 && { court: targetCourts.join(",") })],
    and the [court__in] member the resource-backed server sets under the
    same test. *)
Definition courtParam (targetCourts : list string) : option string :=
  if 0 <? List.length targetCourts then Some (join "," targetCourts)
  else None.

End Tools.

(** *** The resource-backed server's PACER helper and court-level filter *)

Module ResourceTools.





(** The filter callback of [analyzeCaseOutcomes] on court ids. *)
Definition keptAtLevel (court_level id : string) : bool :=
  let lowerCourt := JS.toLowerCase id in
  if String.eqb court_level "trial" then
    JS.includes lowerCourt "d" && negb (JS.includes lowerCourt "ca")
    && negb (JS.includes lowerCourt "scotus")
  else if String.eqb court_level "appellate" then
    JS.includes lowerCourt "ca" || JS.includes lowerCourt "app"
  else if String.eqb court_level "supreme" then
    String.eqb lowerCourt "scotus" || JS.includes lowerCourt "supreme"
  else true.

(** [if (targetCourts.length > 0 && court_level !== "all") targetCourts =
    targetCourts.filter(...)] *)
Definition applyCourtLevel (court_level : string) (targetCourts : list string)
  : list string :=
  if (0 <? List.length targetCourts) && negb (String.eqb court_level "all")
  then filter (keptAtLevel court_level) targetCourts
  else targetCourts.

(** [Object.keys(mappings.mappings || {})] inside [try], [[]] from the
    [catch]: [CourtResourceManager.getAvailableJurisdictions]. *)
Definition getAvailableJurisdictions
  (resource : CourtResourceManager.CourtMappings) : list string :=
  match resource with
  | None => []
  | Some mappings => map fst mappings
  end.

End ResourceTools.

(** *** The live server's court-level filter *)

Module LiveTools.

(** The callback that selects [courtsByLevel] in [analyzeCaseOutcomes]. *)
Definition atLevel (court_level : string) (court : CourtInfo) : bool :=
  if String.eqb court_level "trial" && String.eqb (jurisdiction court) "ST"
  then true
  else if String.eqb court_level "appellate"
          && (JS.includes (id court) "app" || JS.includes (id court) "ca")
  then true
  else if String.eqb court_level "supreme"
          && (String.eqb (id court) "scotus" || JS.includes (id court) "supreme")
  then true
  else false.

(** The court-level step of [analyzeCaseOutcomes], against the cache that
    [ensureCourtCache] left. *)
Definition applyCourtLevel (cache : option CourtCache) (court_level : string)
  (targetCourts : list string) : list string :=
  if (0 <? List.length targetCourts) && negb (String.eqb court_level "all")
  then
    match cache with
    | Some courtCache =>
        let courtsByLevel := filter (atLevel court_level) (all courtCache) in
        filter (knownId courtsByLevel) targetCourts
    | None => targetCourts
    end
  else targetCourts.

End LiveTools.

(** *** The files the generator writes *)

Module GeneratorFiles.

Definition states : list string :=
  [ "alabama"; "alaska"; "arizona"; "arkansas"; "california"; "colorado";
    "connecticut"; "delaware"; "florida"; "georgia"; "hawaii"; "idaho";
    "illinois"; "indiana"; "iowa"; "kansas"; "kentucky"; "louisiana";
    "maine"; "maryland"; "massachusetts"; "michigan"; "minnesota";
    "mississippi"; "missouri"; "montana"; "nebraska"; "nevada";
    "new-hampshire"; "new-jersey"; "new-mexico"; "new-york";
    "north-carolina"; "north-dakota"; "ohio"; "oklahoma"; "oregon";
    "pennsylvania"; "rhode-island"; "south-carolina"; "south-dakota";
    "tennessee"; "texas"; "utah"; "vermont"; "virginia"; "washington";
    "west-virginia"; "wisconsin"; "wyoming" ].

(** [StateCourtResourceFile], without its time stamp. *)
Record StateCourtResourceFile := {
  sf_state : string;
  sf_total_courts : nat;
  types_federal : list string;
  types_state : list string;
  types_bankruptcy : list string;
  types_local : list string;
  sf_courts : list CourtInfo
}.

Definition hasJurisdiction (code : string) (c : CourtInfo) : bool :=
  String.eqb (jurisdiction c) code.

(** [!['F', 'ST', 'FB'].includes(c.jurisdiction)] *)
Definition isLocal (c : CourtInfo) : bool :=
  negb (existsb (String.eqb (jurisdiction c)) ["F"; "ST"; "FB"]).

Definition stateFile (state : string) (stateCourts : list CourtInfo)
  : StateCourtResourceFile :=
  {| sf_state := state;
     sf_total_courts := List.length stateCourts;
     types_federal := ids (filter (hasJurisdiction "F") stateCourts);
     types_state := ids (filter (hasJurisdiction "ST") stateCourts);
     types_bankruptcy := ids (filter (hasJurisdiction "FB") stateCourts);
     types_local := ids (filter isLocal stateCourts);
     sf_courts := stateCourts |}.

(** The loop of [generateStateResources] over the given states: the files
    written, by relative path, in order. [None] when [findCourtsByState]
    raises. *)
Fixpoint writeStateFiles (sts : list string) (courts : CourtCache)
  : option (list (string * StateCourtResourceFile)) :=
  match sts with
  | [] => Some []
  | state :: rest =>
      match Generator.findCourtsByState state courts with
      | None => None
      | Some stateCourts =>
          match writeStateFiles rest courts with
          | None => None
          | Some written =>
              if List.length stateCourts =? 0 then Some written
              else
                Some ((("courts/states/" ++ state ++ ".json")%string,
                       stateFile state stateCourts) :: written)
          end
      end
  end.

Definition generateStateResources (courts : CourtCache)
  : option (list (string * StateCourtResourceFile)) :=
  writeStateFiles states courts.

(** The [categories] member of [courts/all.json]. *)
Record CategoryCounts := {
  n_federal : nat;
  n_state : nat;
  n_bankruptcy : nat;
  n_military : nat;
  n_special : nat
}.

(** [CourtResourceFile], without its time stamp and API version. *)
Record CourtResourceFile := {
  total_courts : nat;
  file_categories : option CategoryCounts;
  file_courts : list CourtInfo
}.

Definition categoryFile (l : list CourtInfo) : CourtResourceFile :=
  {| total_courts := List.length l; file_categories := None; file_courts := l |}.

(** [generateCourtResources]: the six files, by relative path, in the order
    they are written. *)
Definition generateCourtResources (courts : CourtCache)
  : list (string * CourtResourceFile) :=
  [ ("courts/all.json",
     {| total_courts := List.length (all courts);
        file_categories :=
          Some {| n_federal := List.length (federal courts);
                  n_state := List.length (state courts);
                  n_bankruptcy := List.length (federal_bankruptcy courts);
                  n_military := List.length (military courts);
                  n_special := List.length (special courts) |};
        file_courts := all courts |});
    ("courts/federal.json", categoryFile (federal courts));
    ("courts/state.json", categoryFile (state courts));
    ("courts/bankruptcy.json", categoryFile (federal_bankruptcy courts));
    ("courts/military.json", categoryFile (military courts));
    ("courts/special.json", categoryFile (special courts)) ].

End GeneratorFiles.

(** The entries a state variation contributes to the mappings: each of its
    names with the ids of the courts that carry one of its codes. *)
Definition variationEntries (courts : CourtCache)
  (variation : list string * list string) : Generator.Mappings :=
  map (fun name =>
         (name, ids (filter (idHasCode (snd variation)) (all courts))))
    (fst variation).

(** What every state file written by [generateStateResources] satisfies. *)
Definition wellFormedStateFile
  (entry : string * GeneratorFiles.StateCourtResourceFile) : Prop :=
  let (path, file) := entry in
  In (GeneratorFiles.sf_state file) GeneratorFiles.states
  /\ path = ("courts/states/" ++ GeneratorFiles.sf_state file ++ ".json")%string
  /\ 1 <= GeneratorFiles.sf_total_courts file
  /\ GeneratorFiles.sf_total_courts file
     = List.length (GeneratorFiles.sf_courts file)
  /\ List.length (GeneratorFiles.types_federal file)
     + List.length (GeneratorFiles.types_state file)
     + List.length (GeneratorFiles.types_bankruptcy file)
     + List.length (GeneratorFiles.types_local file)
     = GeneratorFiles.sf_total_courts file.

(** The keys the keyword triggers of the live suggestion engine can add. *)
Definition suggestionKeywords : list string :=
  [ "federal"; "state"; "scotus"; "california"; "new-york"; "south-carolina";
    "north-carolina"; "south-dakota"; "north-dakota"; "new-jersey";
    "new-mexico"; "west-virginia"; "new-hampshire"; "rhode-island" ].

(** The category a sentinel keyword of the live resolver stands for. *)
Definition keywordCategory (normalized : string) : option Category :=
  if String.eqb normalized "federal" then Some FEDERAL
  else if String.eqb normalized "state" then Some STATE
  else if String.eqb normalized "federalbankruptcy" then Some FEDERAL_BANKRUPTCY
  else if String.eqb normalized "bankruptcy" then Some FEDERAL_BANKRUPTCY
  else if String.eqb normalized "military" then Some MILITARY
  else if String.eqb normalized "special" then Some SPECIAL
  else None.

(** The directory a possibly missing cache holds. *)
Definition cachedCourts (cache : option CourtCache) : list CourtInfo :=
  match cache with
  | Some courtCache => all courtCache
  | None => []
  end.

(** Pages [page] to [page + n - 1] of an endpoint, concatenated. *)
Definition pagesFrom (api : Live.Endpoint) (page n : nat) : list RawCourt :=
  flat_map (fun p =>
              match api p with
              | Some response => Live.results response
              | None => []
              end) (seq page n).

(** Every name of a court record is a non-empty string. *)
Definition namedCourt (c : CourtInfo) : bool :=
  JS.truthy (id c) && JS.truthy (short_name c) && JS.truthy (full_name c)
  && JS.truthy (jurisdiction c).

(** Whether a string holds a white space character. *)
Fixpoint hasWhiteSpace (s : string) : bool :=
  match s with
  | EmptyString => false
  | String c r => JS.isWhiteSpace c || hasWhiteSpace r
  end.

(** The court clause the resource-backed server appends to its query:
    [targetCourts.length > 0 ? ` AND court_id:(${targetCourts.join(' OR ')})` : ''] *)
Definition courtFilter (targetCourts : list string) : string :=
  if 0 <? List.length targetCourts then
    (" AND court_id:(" ++ Tools.join " OR " targetCourts ++ ")")%string
  else EmptyString.

(** Pages 1 to [n] of an endpoint, concatenated. *)
Definition pagesThrough (api : Live.Endpoint) (n : nat) : list RawCourt :=
  flat_map (fun page =>
              match api page with
              | Some response => Live.results response
              | None => []
              end) (seq 1 n).

(* ------------------------------------------------------------------ *)
(** ** The categoriser partitions the usable records *)

Section Categorizer.

Lemma categorizeStep_all (d : CourtCache) (court : RawCourt) :
  all (categorizeStep d court)
  = all d ++ (if usable court then [courtInfoOf court] else []).
Proof.
  unfold categorizeStep.
  destruct (usable court); simpl.
  - destruct (bucket _); reflexivity.
  - now rewrite app_nil_r.
Qed.

Lemma categorizeStep_category (k : Category) (d : CourtCache) (court : RawCourt) :
  category k (categorizeStep d court)
  = category k d
    ++ (if usable court then filter (inCategory k) [courtInfoOf court] else []).
Proof.
  unfold categorizeStep.
  destruct (usable court); simpl negb; cbv iota.
  - remember (courtInfoOf court) as info.
    unfold inCategory, filter.
    destruct (bucket (jurisdiction info)), k; simpl;
      rewrite ?app_nil_r; reflexivity.
  - now rewrite app_nil_r.
Qed.

Lemma fold_categorizeStep_all (courts : list RawCourt) :
  forall d,
    all (fold_left categorizeStep courts d)
    = all d ++ map courtInfoOf (filter usable courts).
Proof.
  induction courts as [|court rest IH]; intros d; simpl.
  - now rewrite app_nil_r.
  - rewrite IH, categorizeStep_all.
    destruct (usable court); simpl; rewrite <- app_assoc; reflexivity.
Qed.

Lemma fold_categorizeStep_category (k : Category) (courts : list RawCourt) :
  forall d,
    category k (fold_left categorizeStep courts d)
    = category k d ++ filter (inCategory k) (map courtInfoOf (filter usable courts)).
Proof.
  induction courts as [|court rest IH]; intros d; simpl.
  - now rewrite app_nil_r.
  - rewrite IH, categorizeStep_category.
    destruct (usable court); simpl.
    + destruct (inCategory k (courtInfoOf court));
        rewrite <- app_assoc; reflexivity.
    + rewrite <- app_assoc; reflexivity.
Qed.

Lemma filter_categories_length (l : list CourtInfo) :
  length (filter (inCategory FEDERAL) l)
  + length (filter (inCategory STATE) l)
  + length (filter (inCategory FEDERAL_BANKRUPTCY) l)
  + length (filter (inCategory MILITARY) l)
  + length (filter (inCategory SPECIAL) l)
  = length l.
Proof.
  induction l as [|c l IH]; simpl; [reflexivity|].
  destruct (inCategory FEDERAL c) eqn:E1, (inCategory STATE c) eqn:E2,
    (inCategory FEDERAL_BANKRUPTCY c) eqn:E3, (inCategory MILITARY c) eqn:E4,
    (inCategory SPECIAL c) eqn:E5;
    unfold inCategory in E1, E2, E3, E4, E5;
    destruct (bucket (jurisdiction c)); try discriminate; simpl; lia.
Qed.

Lemma bucket_unrecognized (jur : string) :
  existsb (String.eqb jur) ["F"; "ST"; "FB"; "MA"] = false ->
  bucket jur = SPECIAL.
Proof.
  unfold bucket; simpl.
  destruct (String.eqb jur "F"); [discriminate|].
  destruct (String.eqb jur "ST"); [discriminate|].
  destruct (String.eqb jur "FB"); [discriminate|].
  destruct (String.eqb jur "MA"); [discriminate|].
  destruct (String.eqb jur "FS"); reflexivity.
Qed.

(** C4. The categoriser appends every usable record (truthy id and truthy
    jurisdiction code), in input order, to [all]; each category sequence is
    the stable filter of [all] by the bucket of the jurisdiction code;
    every record falls in exactly one of the five buckets, a code other
    than "F", "ST", "FB", "MA" in SPECIAL; hence the five lengths add up to
    the length of [all], and a second run on the same input gives the same
    counts. *)
Theorem categorizer_partitions_usable_records (courts : list RawCourt) :
  let d := categorizeCourtsByJurisdiction courts in
  all d = map courtInfoOf (filter usable courts)
  /\ (forall k, category k d = filter (inCategory k) (all d))
  /\ (forall c, length (filter (fun k => inCategory k c) categories) = 1)
  /\ (forall c, existsb (String.eqb (jurisdiction c)) ["F"; "ST"; "FB"; "MA"]
                || inCategory SPECIAL c = true)
  /\ length (federal d) + length (state d) + length (federal_bankruptcy d)
     + length (military d) + length (special d) = length (all d)
  /\ categoryCounts (categorizeCourtsByJurisdiction courts) = categoryCounts d.
Proof.
  intros d.
  assert (Hall : all d = map courtInfoOf (filter usable courts)).
  { unfold d, categorizeCourtsByJurisdiction.
    now rewrite fold_categorizeStep_all. }
  assert (Hcat : forall k, category k d = filter (inCategory k) (all d)).
  { intros k. rewrite Hall. unfold d, categorizeCourtsByJurisdiction.
    rewrite fold_categorizeStep_category. now destruct k. }
  repeat split.
  - exact Hall.
  - exact Hcat.
  - intros c. unfold categories, inCategory. simpl.
    destruct (bucket (jurisdiction c)); reflexivity.
  - intros c.
    destruct (existsb _ _) eqn:E; [reflexivity|].
    unfold inCategory. now rewrite (bucket_unrecognized _ E).
  - rewrite <- (filter_categories_length (all d)).
    rewrite <- (Hcat FEDERAL), <- (Hcat STATE), <- (Hcat FEDERAL_BANKRUPTCY),
      <- (Hcat MILITARY), <- (Hcat SPECIAL).
    reflexivity.
Qed.

End Categorizer.

(* ------------------------------------------------------------------ *)
(** ** The live resolver: sentinel, comma list, exact id *)

Section LiveResolver.

Variable courtCache : CourtCache.

Lemma includes_comma_cons (c : ascii) (r : string) :
  JS.includes (String c r) "," = Ascii.eqb c "," || JS.includes r ",".
Proof.
  simpl. now rewrite andb_true_r.
Qed.

Lemma comma_survives_toLowerCase (s : string) :
  JS.includes s "," = true -> JS.includes (JS.toLowerCase s) "," = true.
Proof.
  induction s as [|c r IH]; [discriminate|].
  change (JS.toLowerCase (String c r))
    with (String (JS.toLowerChar c) (JS.toLowerCase r)).
  rewrite !includes_comma_cons.
  intros H. apply orb_true_iff in H. apply orb_true_iff.
  destruct H as [H|H].
  - left. apply Ascii.eqb_eq in H. subst c. reflexivity.
  - right. now apply IH.
Qed.

Lemma comma_survives_stripSeparators (s : string) :
  JS.includes s "," = true -> JS.includes (JS.stripSeparators s) "," = true.
Proof.
  induction s as [|c r IH]; [discriminate|].
  rewrite includes_comma_cons. intros H.
  apply orb_true_iff in H.
  change (JS.stripSeparators (String c r))
    with (if JS.isSeparator c then JS.stripSeparators r
          else String c (JS.stripSeparators r)).
  destruct H as [H|H].
  - apply Ascii.eqb_eq in H. subst c. reflexivity.
  - destruct (JS.isSeparator c); [now apply IH|].
    rewrite includes_comma_cons, (IH H). apply orb_true_r.
Qed.

Lemma comma_in_normalized (jurisdiction : string) :
  JS.includes jurisdiction "," = true ->
  JS.includes (normalize jurisdiction) "," = true.
Proof.
  intros H. unfold normalize.
  now apply comma_survives_stripSeparators, comma_survives_toLowerCase.
Qed.

Lemma sentinel_outside_vocabulary (normalized : string) :
  existsb (String.eqb normalized) sentinelKeywords = false ->
  Live.sentinel courtCache normalized = None.
Proof.
  unfold sentinelKeywords, Live.sentinel. simpl.
  repeat (destruct (String.eqb normalized _); [discriminate|]).
  reflexivity.
Qed.

Lemma comma_outside_vocabulary (normalized : string) :
  JS.includes normalized "," = true ->
  existsb (String.eqb normalized) sentinelKeywords = false.
Proof.
  intros H.
  destruct (existsb (String.eqb normalized) sentinelKeywords) eqn:E;
    [|reflexivity].
  apply existsb_exists in E. destruct E as [kw [Hin Heq]].
  apply String.eqb_eq in Heq. subst kw.
  unfold sentinelKeywords in Hin. simpl in Hin.
  repeat (destruct Hin as [Hin|Hin]; [subst normalized; discriminate H|]).
  contradiction.
Qed.

Lemma resolveAgainst_comma (jurisdiction : string) :
  JS.includes jurisdiction "," = true ->
  Live.resolveAgainst courtCache jurisdiction
  = Resolved (filter (knownId (all courtCache))
                (map JS.trim (JS.splitComma jurisdiction))).
Proof.
  intros H. unfold Live.resolveAgainst.
  fold (normalize jurisdiction).
  rewrite (sentinel_outside_vocabulary _
             (comma_outside_vocabulary _ (comma_in_normalized _ H))).
  now rewrite H.
Qed.

(** C3. A token with a comma is split on commas, each part is trimmed, and
    exactly the parts that are ids of the directory are returned, in order;
    the outcome is never an error. With "ca9" and "scotus" in the directory
    and "bogus" not, "ca9,bogus,scotus" resolves to ["ca9"; "scotus"]. *)
Theorem comma_list_keeps_known_ids (jurisdiction : string) :
  (JS.includes jurisdiction "," = true ->
   Live.resolveAgainst courtCache jurisdiction
   = Resolved (filter (knownId (all courtCache))
                 (map JS.trim (JS.splitComma jurisdiction))))
  /\ (knownId (all courtCache) "ca9" = true ->
      knownId (all courtCache) "scotus" = true ->
      knownId (all courtCache) "bogus" = false ->
      Live.resolveAgainst courtCache "ca9,bogus,scotus"
      = Resolved ["ca9"; "scotus"]).
Proof.
  split.
  - apply resolveAgainst_comma.
  - intros Hca9 Hscotus Hbogus.
    rewrite resolveAgainst_comma by reflexivity.
    change (map JS.trim (JS.splitComma "ca9,bogus,scotus"))
      with ["ca9"; "bogus"; "scotus"].
    unfold filter. now rewrite Hca9, Hscotus, Hbogus.
Qed.

(** C10. A token with a comma none of whose trimmed parts is an id of the
    directory resolves to the empty list, not to an error: the same outcome
    as the sentinel "all". *)
Theorem unknown_comma_list_resolves_like_all (jurisdiction : string) :
  JS.includes jurisdiction "," = true ->
  forallb (fun part => negb (knownId (all courtCache) (JS.trim part)))
    (JS.splitComma jurisdiction) = true ->
  Live.resolveAgainst courtCache jurisdiction = Resolved []
  /\ Live.resolveAgainst courtCache jurisdiction
     = Live.resolveAgainst courtCache "all".
Proof.
  intros Hcomma Hnone.
  assert (E : Live.resolveAgainst courtCache jurisdiction = Resolved []).
  { rewrite resolveAgainst_comma by assumption. f_equal.
    induction (JS.splitComma jurisdiction) as [|part parts IH];
      [reflexivity|].
    simpl in Hnone |- *. apply andb_true_iff in Hnone.
    destruct Hnone as [Hpart Hparts].
    apply negb_true_iff in Hpart. rewrite Hpart. now apply IH. }
  split; [exact E|]. rewrite E. reflexivity.
Qed.

(** C2, as amended. A token that is, character for character, the id of a
    court of the directory, has no comma and does not normalise to a
    sentinel keyword resolves to the one-element list of that id. *)
Theorem exact_id_resolves_to_itself (jurisdiction : string) :
  knownId (all courtCache) jurisdiction = true ->
  JS.includes jurisdiction "," = false ->
  existsb (String.eqb (normalize jurisdiction)) sentinelKeywords = false ->
  Live.resolveAgainst courtCache jurisdiction = Resolved [jurisdiction].
Proof.
  intros Hknown Hcomma Hkw. unfold Live.resolveAgainst.
  fold (normalize jurisdiction).
  rewrite (sentinel_outside_vocabulary _ Hkw), Hcomma, Hknown.
  reflexivity.
Qed.

End LiveResolver.

Lemma comma_list_keeps_known_ids_witness :
  Live.resolveAgainst sample "ca9,bogus,scotus" = Resolved ["ca9"; "scotus"].
Proof.
  apply (proj2 (comma_list_keeps_known_ids sample "ca9,bogus,scotus"));
    reflexivity.
Defined.

Lemma unknown_comma_list_resolves_like_all_witness :
  Live.resolveAgainst sample "bogus1,bogus2" = Resolved []
  /\ Live.resolveAgainst sample "bogus1,bogus2"
     = Live.resolveAgainst sample "all".
Proof.
  apply (unknown_comma_list_resolves_like_all sample "bogus1,bogus2");
    reflexivity.
Defined.

Lemma exact_id_resolves_to_itself_witness :
  Live.resolveAgainst sample "scotus" = Resolved ["scotus"].
Proof.
  apply (exact_id_resolves_to_itself sample "scotus"); reflexivity.
Defined.

(** C2, as stated, fails: "SCOTUS" is the id "scotus" under another casing,
    and the sample directory does not resolve it. *)
Lemma upper_case_id_not_resolved :
  ~ (forall (courtCache : CourtCache) (jurisdiction : string) (c : CourtInfo),
        In c (all courtCache) ->
        JS.toLowerCase jurisdiction = JS.toLowerCase (id c) ->
        Live.resolveAgainst courtCache jurisdiction = Resolved [id c]).
Proof.
  intros claim.
  specialize (claim sample "SCOTUS"
                (courtInfoOf (Generator.sampleCourt "scotus" "U.S."
                                "Supreme Court of the United States" "F"))).
  assert (H : Live.resolveAgainst sample "SCOTUS"
              = unrecognized "SCOTUS") by reflexivity.
  rewrite H in claim.
  discriminate claim.
  - left. reflexivity.
  - reflexivity.
Qed.

(** With a directory in the cache that has not expired, the server's
    [resolveJurisdiction] acquires nothing and answers from that directory;
    after a refresh it answers from the directory just categorised. *)
Lemma resolveJurisdiction_valid_cache (fuel : nat) (api : Live.Endpoint)
  (now : Z) (s : Live.Server) (directory : CourtCache) (jurisdiction : string) :
  Live.courtCache s = Some directory ->
  Live.needsRefresh s now = false ->
  Live.resolveJurisdiction fuel api now s jurisdiction
  = Some (s, Live.resolveAgainst directory jurisdiction).
Proof.
  intros Hcache Hvalid.
  unfold Live.resolveJurisdiction, Live.ensureCourtCache.
  now rewrite Hvalid, Hcache.
Qed.

Lemma resolveJurisdiction_refresh (fuel : nat) (api : Live.Endpoint)
  (now : Z) (s : Live.Server) (courts : list RawCourt) (jurisdiction : string) :
  Live.needsRefresh s now = true ->
  Live.discoverCourts fuel api = Some courts ->
  Live.resolveJurisdiction fuel api now s jurisdiction
  = Some (Live.refreshed now courts,
          Live.resolveAgainst (categorizeCourtsByJurisdiction courts)
            jurisdiction).
Proof.
  intros Hstale Hcourts.
  unfold Live.resolveJurisdiction, Live.ensureCourtCache.
  now rewrite Hstale, Hcourts.
Qed.

(** The resource-backed resolver looks tokens up among the generated
    keys, which are category and state names: a court id that is no such
    name is not resolved, nor is a comma list. *)
Lemma resource_resolver_knows_no_court_id :
  ResourceServer.resolveJurisdiction
    (Some (Generator.generateMappingResources sample)) "scotus"
  = unrecognized "scotus"
  /\ ResourceServer.resolveJurisdiction
       (Some (Generator.generateMappingResources sample)) "ca9,scotus"
     = unrecognized "ca9,scotus".
Proof. split; reflexivity. Qed.

(* ------------------------------------------------------------------ *)
(** ** The sentinel "all" on both resolvers *)

Lemma generated_mappings_all (courts : CourtCache) :
  JS.lookup "all" (Generator.generateMappingResources courts) = Some [].
Proof. reflexivity. Qed.

Lemma generated_mappings_zzzznotreal (courts : CourtCache) :
  JS.lookup "zzzznotreal" (Generator.generateMappingResources courts) = None.
Proof. reflexivity. Qed.

(** C1. On the live resolver "all" resolves, for every directory, to the
    empty list. On the resource-backed resolver it does not: the generated
    mappings hold the empty array under "all", the server takes the empty
    array for a failed lookup and raises the unrecognized-jurisdiction
    error, as it does for "zzzznotreal" and when the resource is missing. *)
Theorem all_sentinel_rejected_by_resource_resolver (courts : CourtCache) :
  Live.resolveAgainst courts "all" = Resolved []
  /\ CourtResourceManager.resolveJurisdiction
       (Some (Generator.generateMappingResources courts)) "all"
     = CourtResourceManager.Arr []
  /\ ResourceServer.resolveJurisdiction
       (Some (Generator.generateMappingResources courts)) "all"
     = unrecognized "all"
  /\ ResourceServer.resolveJurisdiction None "all" = unrecognized "all"
  /\ ResourceServer.resolveJurisdiction
       (Some (Generator.generateMappingResources courts)) "zzzznotreal"
     = unrecognized "zzzznotreal".
Proof.
  assert (Hall : CourtResourceManager.resolveJurisdiction
                   (Some (Generator.generateMappingResources courts)) "all"
                 = CourtResourceManager.Arr []).
  { unfold CourtResourceManager.resolveJurisdiction.
    change (JS.toLowerCase "all") with "all".
    now rewrite generated_mappings_all. }
  repeat apply conj.
  - reflexivity.
  - exact Hall.
  - unfold ResourceServer.resolveJurisdiction. now rewrite Hall.
  - reflexivity.
  - unfold ResourceServer.resolveJurisdiction,
      CourtResourceManager.resolveJurisdiction.
    change (JS.toLowerCase "zzzznotreal") with "zzzznotreal".
    now rewrite generated_mappings_zzzznotreal.
Qed.

(* ------------------------------------------------------------------ *)
(** ** State lookup *)

Lemma live_findCourtsByState_known (courts : CourtCache)
  (stateName : string) (codes : list string) :
  JS.lookup stateName stateAbbreviations = Some codes ->
  Live.findCourtsByState (Some courts) stateName
  = Some (ids (filter (idHasCode codes) (state courts))).
Proof.
  intros H. unfold Live.findCourtsByState, stateCodes. now rewrite H.
Qed.

Lemma generator_findCourtsByState_known (courts : CourtCache)
  (stateName : string) (codes : list string) :
  JS.lookup stateName stateAbbreviations = Some codes ->
  Generator.findCourtsByState stateName courts
  = Some (filter (idHasCode codes) (all courts)).
Proof.
  intros H. unfold Generator.findCourtsByState, stateCodes. now rewrite H.
Qed.

(** C5. On the sample directory the live state lookup for "california"
    (codes "ca" and "cal") returns only "cal", the one matching court of
    the state category; the records of the full sequence whose id begins
    with one of the codes are "ca9", "ca2", "cacd", "cal" and "cacb", which
    is what the generator's lookup and the generated mappings return. *)
Theorem live_state_lookup_reads_state_category_only :
  JS.lookup "california" stateAbbreviations = Some ["ca"; "cal"]
  /\ Live.findCourtsByState (Some sample) "california" = Some ["cal"]
  /\ ids (filter (idHasCode ["ca"; "cal"]) (all sample))
     = ["ca9"; "ca2"; "cacd"; "cal"; "cacb"]
  /\ option_map ids (Generator.findCourtsByState "california" sample)
     = Some ["ca9"; "ca2"; "cacd"; "cal"; "cacb"]
  /\ JS.lookup "california" (Generator.generateMappingResources sample)
     = Some ["ca9"; "ca2"; "cacd"; "cal"; "cacb"].
Proof.
  repeat apply conj; reflexivity.
Qed.

(* ------------------------------------------------------------------ *)
(** ** Suggestions *)

Lemma keywordSuggestions_calfornia (suggestions : list string) :
  Live.keywordSuggestions "calfornia" suggestions = suggestions.
Proof. reflexivity. Qed.

Lemma filter_none {A} (f : A -> bool) (l : list A) :
  forallb (fun x => negb (f x)) l = true -> filter f l = [].
Proof.
  induction l as [|x l IH]; simpl; [reflexivity|].
  intros H. apply andb_true_iff in H. destruct H as [Hx Hl].
  apply negb_true_iff in Hx. rewrite Hx. now apply IH.
Qed.

(** C9, as amended. For "calfornia" no keyword trigger fires: the
    suggestions are the ids of the courts, among the first 100 of the
    directory, whose lower-cased short or full name contains "calfornia",
    without duplicates and cut to 5; there is none when no such name
    contains that text. *)
Theorem calfornia_suggestions_are_name_matches (courtCache : CourtCache) :
  Live.suggestSimilarJurisdictions (Some courtCache) "calfornia"
  = JS.slice0 5 (JS.uniq (ids (filter (Live.nameIncludes "calfornia")
                                 (JS.slice0 100 (all courtCache)))))
  /\ (forallb (fun c => negb (Live.nameIncludes "calfornia" c))
        (JS.slice0 100 (all courtCache)) = true ->
      Live.suggestSimilarJurisdictions (Some courtCache) "calfornia" = []).
Proof.
  assert (E : Live.suggestSimilarJurisdictions (Some courtCache) "calfornia"
              = JS.slice0 5 (JS.uniq (ids (filter (Live.nameIncludes "calfornia")
                                             (JS.slice0 100 (all courtCache)))))).
  { unfold Live.suggestSimilarJurisdictions.
    change (JS.toLowerCase "calfornia") with "calfornia".
    now rewrite keywordSuggestions_calfornia. }
  split; [exact E|].
  intros H. rewrite E, (filter_none _ _ H). reflexivity.
Qed.

Lemma calfornia_suggestions_are_name_matches_witness :
  Live.suggestSimilarJurisdictions (Some sample) "calfornia" = [].
Proof.
  apply (proj2 (calfornia_suggestions_are_name_matches sample)).
  reflexivity.
Defined.

(** C9, as stated, fails: the sample directory holds California courts and
    has no suggestion for "calfornia", on either server. *)
Lemma calfornia_has_no_suggestion :
  ~ (forall courtCache : CourtCache,
        existsb (fun c => JS.includes (JS.toLowerCase (full_name c)) "california")
          (all courtCache) = true ->
        Live.suggestSimilarJurisdictions (Some courtCache) "calfornia" <> [])
  /\ ResourceServer.suggestSimilarJurisdictions
       (Some (Generator.generateMappingResources sample)) "calfornia" = [].
Proof.
  split; [|reflexivity].
  intros claim. apply (claim sample); reflexivity.
Qed.

(* ------------------------------------------------------------------ *)
(** ** Live acquisition: the pagination loop *)

Section Pagination.

Variable api : Live.Endpoint.
Variable pageSize : nat.

Hypothesis progress :
  forall page response,
    api page = Some response ->
    Live.next response = true -> Live.results response <> [].

Hypothesis sized :
  forall page response,
    api page = Some response -> length (Live.results response) <= pageSize.

Lemma paginate_leaves_loop (fuel : nat) :
  forall (allCourts : list RawCourt) (page : nat) (hasMore : bool),
    (if hasMore then 4000 - length allCourts + 1 else 1) <= fuel ->
    Live.paginate fuel api allCourts page hasMore <> Live.Running.
Proof.
  induction fuel as [|fuel IH]; intros allCourts page hasMore Hfuel.
  - destruct hasMore; cbv iota in Hfuel; lia.
  - simpl. destruct hasMore; cbv iota in Hfuel; simpl; [|discriminate].
    destruct (length allCourts <? 4000) eqn:Hlen; [|discriminate].
    apply Nat.ltb_lt in Hlen.
    destruct (api page) as [response|] eqn:Hpage; [|discriminate].
    apply IH. rewrite length_app.
    destruct (Live.next response) eqn:Hnext; [|clear - Hfuel Hlen; lia].
    pose proof (progress page response Hpage Hnext) as Hne.
    assert (Hone : 1 <= length (Live.results response)).
    { destruct (Live.results response) as [|court more]; [contradiction|].
      simpl. lia. }
    clear - Hfuel Hlen Hone. lia.
Qed.

Lemma paginate_below_ceiling_plus_page (fuel : nat) :
  forall (allCourts : list RawCourt) page hasMore returned,
    length allCourts < 4000 + pageSize ->
    Live.paginate fuel api allCourts page hasMore = Live.Returned returned ->
    length returned < 4000 + pageSize.
Proof.
  induction fuel as [|fuel IH]; intros allCourts page hasMore returned Hacc;
    simpl; [discriminate|].
  destruct (hasMore && (length allCourts <? 4000)) eqn:Hcond.
  - apply andb_true_iff in Hcond. destruct Hcond as [_ Hlen].
    apply Nat.ltb_lt in Hlen.
    destruct (api page) as [response|] eqn:Hpage; [|discriminate].
    apply IH. rewrite length_app.
    pose proof (sized page response Hpage). lia.
  - intros H. injection H as <-. exact Hacc.
Qed.

(** C7, as amended. When every page that announces a further page carries
    at least one record, live acquisition returns within 4001 rounds of
    the loop, also on a stream that never signals a last page; with pages
    of at most [pageSize] records it returns fewer than 4000 + [pageSize]
    records, the rest of the stream not being fetched. *)
Theorem acquisition_returns_when_pages_progress (fuel : nat) :
  4001 <= fuel ->
  exists allCourts,
    Live.discoverCourts fuel api = Some allCourts
    /\ length allCourts < 4000 + pageSize.
Proof.
  intros Hfuel. unfold Live.discoverCourts.
  assert (Hstart : @length RawCourt [] < 4000 + pageSize).
  { change (@length RawCourt []) with 0. lia. }
  assert (Hleave : Live.paginate fuel api [] 1 true <> Live.Running).
  { apply paginate_leaves_loop. cbv iota.
    change (@length RawCourt []) with 0. lia. }
  destruct (Live.paginate fuel api [] 1 true) as [returned| |] eqn:Hrun.
  - exists returned. split; [reflexivity|].
    exact (paginate_below_ceiling_plus_page fuel [] 1 true returned
             Hstart Hrun).
  - exists []. split; [reflexivity|exact Hstart].
  - contradiction.
Qed.

End Pagination.

(** An endpoint that serves the 14 sample courts on every page and never
    signals a last page. *)
Lemma acquisition_returns_when_pages_progress_witness :
  exists allCourts,
    Live.discoverCourts 4001
      (fun _ => Some {| Live.results := Generator.sampleAllCourts;
                        Live.next := true |})
    = Some allCourts
    /\ length allCourts < 4000 + 14.
Proof.
  apply (acquisition_returns_when_pages_progress
           (fun _ => Some {| Live.results := Generator.sampleAllCourts;
                             Live.next := true |}) 14).
  - intros page response H _. injection H as <-. simpl. discriminate.
  - intros page response H. injection H as <-. simpl. lia.
  - lia.
Defined.

Lemma stalled_keeps_running (fuel : nat) :
  forall page, Live.paginate fuel stalledEndpoint [] page true = Live.Running.
Proof.
  induction fuel as [|fuel IH]; intros page; [reflexivity|].
  simpl. apply IH.
Qed.

(** C7, as stated, fails twice: on the endpoint that keeps answering with
    empty pages and a [next] link the loop never ends, and on the endpoint
    that serves 150 records a page the result holds 4050 records. *)
Lemma acquisition_neither_total_nor_capped :
  ~ (forall api : Live.Endpoint,
        exists fuel allCourts, Live.discoverCourts fuel api = Some allCourts)
  /\ ~ (forall (api : Live.Endpoint) fuel allCourts,
           Live.discoverCourts fuel api = Some allCourts ->
           length allCourts <= 4000).
Proof.
  split.
  - intros claim. destruct (claim stalledEndpoint) as [fuel [allCourts H]].
    unfold Live.discoverCourts in H.
    rewrite stalled_keeps_running in H. discriminate.
  - intros claim.
    assert (H : exists allCourts,
               Live.discoverCourts 28 wideEndpoint = Some allCourts
               /\ length allCourts = 4050).
    { eexists. split; vm_compute; reflexivity. }
    destruct H as [allCourts [Hrun Hlen]].
    specialize (claim wideEndpoint 28 allCourts Hrun). lia.
Qed.

(* ------------------------------------------------------------------ *)
(** ** The directory cache on a failed acquisition *)

(** C6, as amended. When a page request raises, [discoverCourts] returns
    the empty sequence; a cache that is missing or expired is then replaced
    by the empty directory, valid for the next 15 days, whatever snapshot
    it held, and the call returns normally: resolution goes on against the
    empty directory. A cache that is still valid is left as it is. *)
Theorem failed_acquisition_caches_empty_directory
  (fuel : nat) (api : Live.Endpoint) (now : Z) (s : Live.Server) :
  Live.paginate fuel api [] 1 true = Live.Raised ->
  Live.discoverCourts fuel api = Some []
  /\ Live.ensureCourtCache fuel api now s
     = Some (if Live.needsRefresh s now then emptied now else s)
  /\ (Live.needsRefresh s now = true ->
      forall jurisdiction,
        Live.resolveJurisdiction fuel api now s jurisdiction
        = Some (emptied now, Live.resolveAgainst emptyCache jurisdiction)).
Proof.
  intros Hraised.
  assert (Hdiscover : Live.discoverCourts fuel api = Some []).
  { unfold Live.discoverCourts. now rewrite Hraised. }
  assert (Hensure : Live.ensureCourtCache fuel api now s
                    = Some (if Live.needsRefresh s now then emptied now else s)).
  { unfold Live.ensureCourtCache. rewrite Hdiscover.
    destruct (Live.needsRefresh s now); reflexivity. }
  repeat apply conj; [exact Hdiscover|exact Hensure|].
  intros Hstale jurisdiction.
  unfold Live.resolveJurisdiction. rewrite Hensure, Hstale. reflexivity.
Qed.

Lemma failed_acquisition_caches_empty_directory_witness :
  Live.discoverCourts 3 flakyEndpoint = Some []
  /\ Live.ensureCourtCache 3 flakyEndpoint 1%Z staleServer
     = Some (if Live.needsRefresh staleServer 1%Z then emptied 1%Z
             else staleServer)
  /\ (Live.needsRefresh staleServer 1%Z = true ->
      forall jurisdiction,
        Live.resolveJurisdiction 3 flakyEndpoint 1%Z staleServer jurisdiction
        = Some (emptied 1%Z, Live.resolveAgainst emptyCache jurisdiction)).
Proof.
  apply (failed_acquisition_caches_empty_directory 3 flakyEndpoint 1%Z
           staleServer).
  reflexivity.
Defined.

(** C6, as stated, fails: with the endpoint down, the expired server loses
    its non-empty snapshot to the empty directory, and the server without
    a snapshot resolves "all" against the empty directory instead of
    failing. *)
Lemma failed_acquisition_drops_snapshot :
  ~ (forall fuel api now s previous,
        Live.courtCache s = Some previous ->
        all previous <> [] ->
        Live.paginate fuel api [] 1 true = Live.Raised ->
        exists s',
          Live.ensureCourtCache fuel api now s = Some s'
          /\ Live.courtCache s' = Some previous)
  /\ Live.resolveJurisdiction 1 downEndpoint 1%Z coldServer "all"
     = Some (emptied 1%Z, Resolved []).
Proof.
  split; [|reflexivity].
  intros claim.
  destruct (claim 1 downEndpoint 1%Z staleServer sample) as [s' [Hrun Hkept]].
  - reflexivity.
  - discriminate.
  - reflexivity.
  - assert (E : Live.ensureCourtCache 1 downEndpoint 1%Z staleServer
                = Some (emptied 1%Z)) by reflexivity.
    rewrite E in Hrun. injection Hrun as <-.
    discriminate Hkept.
Qed.

(* ------------------------------------------------------------------ *)
(** ** Interleaved callers of the cache *)

Lemma run_app (sys : Live.System) (t1 t2 : list Live.Event) :
  Live.run sys (t1 ++ t2) = Live.run (Live.run sys t1) t2.
Proof. apply fold_left_app. Qed.

Lemma run_enter_expired (nows : list Z) :
  forall sys,
    forallb (Live.needsRefresh (Live.server sys)) nows = true ->
    Live.run sys (map Live.Enter nows)
    = {| Live.server := Live.server sys;
         Live.acquisitions := Live.acquisitions sys + length nows;
         Live.inflight := Live.inflight sys ++ nows |}.
Proof.
  induction nows as [|now rest IH]; intros sys H; simpl.
  - rewrite Nat.add_0_r, app_nil_r. now destruct sys.
  - simpl in H. apply andb_true_iff in H. destruct H as [Hnow Hrest].
    rewrite Hnow. rewrite IH by exact Hrest. simpl.
    rewrite <- app_assoc. f_equal. lia.
Qed.

Lemma run_enter_valid (nows : list Z) :
  forall sys,
    forallb (fun now => negb (Live.needsRefresh (Live.server sys) now)) nows
    = true ->
    Live.run sys (map Live.Enter nows) = sys.
Proof.
  induction nows as [|now rest IH]; intros sys H; simpl; [reflexivity|].
  simpl in H. apply andb_true_iff in H. destruct H as [Hnow Hrest].
  apply negb_true_iff in Hnow. rewrite Hnow. now apply IH.
Qed.

Lemma refreshed_valid_until_expiry (now : Z) (courts : list RawCourt)
  (laters : list Z) :
  forallb (fun later => Z.leb later (now + Live.CACHE_DURATION)) laters = true ->
  forallb (fun later => negb (Live.needsRefresh (Live.refreshed now courts) later))
    laters = true.
Proof.
  induction laters as [|later rest IH]; [reflexivity|].
  cbn [forallb]. intros H. apply andb_true_iff in H.
  destruct H as [Hlater Hrest].
  rewrite (IH Hrest), andb_true_r.
  unfold Live.needsRefresh, Live.refreshed. cbn [Live.courtCache Live.cacheExpiry].
  apply Z.leb_le in Hlater. apply negb_true_iff, Z.ltb_ge. exact Hlater.
Qed.

(** C8, as amended. Every caller that enters [ensureCourtCache] while the
    cache is missing or expired starts an acquisition of its own: callers
    entering before the first rebuild has been stored perform as many
    acquisitions as there are callers, all in flight together. Only callers
    that enter after a rebuild has been stored, and before it expires, share
    it without acquiring. *)
Theorem concurrent_callers_each_acquire
  (s : Live.Server) (now : Z) (others laters : list Z)
  (courts : list RawCourt) :
  forallb (Live.needsRefresh s) (now :: others) = true ->
  forallb (fun later => Z.leb later (now + Live.CACHE_DURATION)) laters = true ->
  let entered := Live.run (Live.idle s) (map Live.Enter (now :: others)) in
  let settled :=
    Live.run entered (Live.Resume 0 courts :: map Live.Enter laters) in
  Live.acquisitions entered = S (length others)
  /\ Live.inflight entered = now :: others
  /\ Live.server entered = s
  /\ Live.acquisitions settled = S (length others)
  /\ Live.server settled = Live.refreshed now courts.
Proof.
  intros Hexpired Hvalid entered settled.
  assert (E : entered
              = {| Live.server := s;
                   Live.acquisitions := S (length others);
                   Live.inflight := now :: others |}).
  { unfold entered. rewrite run_enter_expired by exact Hexpired.
    reflexivity. }
  assert (F : settled
              = {| Live.server := Live.refreshed now courts;
                   Live.acquisitions := S (length others);
                   Live.inflight := others |}).
  { unfold settled. rewrite E.
    change (Live.run ?x (?e :: ?t)) with (Live.run (Live.step x e) t).
    change (Live.step _ (Live.Resume 0 courts))
      with {| Live.server := Live.refreshed now courts;
              Live.acquisitions := S (length others);
              Live.inflight := others |}.
    apply run_enter_valid. cbn [Live.server].
    now apply refreshed_valid_until_expiry. }
  rewrite E, F. repeat apply conj; reflexivity.
Qed.

Lemma concurrent_callers_each_acquire_witness :
  let entered :=
    Live.run (Live.idle staleServer) (map Live.Enter [10; 11; 12]%Z) in
  let settled :=
    Live.run entered
      (Live.Resume 0 Generator.sampleAllCourts :: map Live.Enter [20; 21]%Z) in
  Live.acquisitions entered = 3
  /\ Live.inflight entered = [10; 11; 12]%Z
  /\ Live.server entered = staleServer
  /\ Live.acquisitions settled = 3
  /\ Live.server settled = Live.refreshed 10%Z Generator.sampleAllCourts.
Proof.
  apply (concurrent_callers_each_acquire staleServer 10%Z [11; 12]%Z
           [20; 21]%Z Generator.sampleAllCourts); reflexivity.
Defined.

(** C8, as stated, fails: two callers entering one after the other on the
    expired server, before either resumes, perform two acquisitions. *)
Lemma two_callers_two_acquisitions :
  ~ (forall (s : Live.Server) (nows : list Z),
        nows <> [] ->
        forallb (Live.needsRefresh s) nows = true ->
        Live.acquisitions (Live.run (Live.idle s) (map Live.Enter nows)) = 1).
Proof.
  intros claim.
  specialize (claim staleServer [10; 11]%Z).
  assert (H : Live.acquisitions
                (Live.run (Live.idle staleServer)
                   (map Live.Enter [10; 11]%Z)) = 2) by reflexivity.
  rewrite H in claim.
  discriminate claim.
  - discriminate.
  - reflexivity.
Qed.

(* ------------------------------------------------------------------ *)
(** ** Facts about the string primitives *)

Section StringFacts.

Lemma toLowerChar_idempotent (c : ascii) :
  JS.toLowerChar (JS.toLowerChar c) = JS.toLowerChar c.
Proof.
  destruct c as [[] [] [] [] [] [] [] []]; reflexivity.
Qed.

Lemma toLowerCase_idempotent (s : string) :
  JS.toLowerCase (JS.toLowerCase s) = JS.toLowerCase s.
Proof.
  induction s as [|c r IH]; simpl; [reflexivity|].
  now rewrite toLowerChar_idempotent, IH.
Qed.


Lemma trimStart_head (s : string) :
  JS.trimStart s = EmptyString
  \/ exists c r, JS.trimStart s = String c r /\ JS.isWhiteSpace c = false.
Proof.
  induction s as [|c r IH]; simpl; [now left|].
  destruct (JS.isWhiteSpace c) eqn:E; [exact IH|].
  right. now exists c, r.
Qed.

Lemma trimStart_length (s : string) :
  String.length (JS.trimStart s) <= String.length s.
Proof.
  induction s as [|c r IH]; simpl; [lia|].
  destruct (JS.isWhiteSpace c); simpl; lia.
Qed.

Lemma trimEnd_length (s : string) :
  String.length (JS.trimEnd s) <= String.length s.
Proof.
  induction s as [|c r IH]; simpl; [lia|].
  destruct (JS.trimEnd r); [destruct (JS.isWhiteSpace c)|]; simpl in *; lia.
Qed.

Lemma trimEnd_idempotent (s : string) :
  JS.trimEnd (JS.trimEnd s) = JS.trimEnd s.
Proof.
  induction s as [|c r IH]; [reflexivity|].
  change (JS.trimEnd (String c r))
    with (match JS.trimEnd r with
          | EmptyString =>
              if JS.isWhiteSpace c then EmptyString else String c EmptyString
          | r' => String c r'
          end).
  destruct (JS.trimEnd r) as [|a b] eqn:E.
  - destruct (JS.isWhiteSpace c) eqn:W; [reflexivity|].
    simpl. now rewrite W.
  - change (JS.trimEnd (String c (String a b)))
      with (match JS.trimEnd (String a b) with
            | EmptyString =>
                if JS.isWhiteSpace c then EmptyString else String c EmptyString
            | r' => String c r'
            end).
    now rewrite IH.
Qed.

Lemma trimEnd_keeps_head (c : ascii) (r : string) :
  JS.isWhiteSpace c = false ->
  exists r', JS.trimEnd (String c r) = String c r'.
Proof.
  intros W. simpl. destruct (JS.trimEnd r) as [|a b].
  - rewrite W. now exists EmptyString.
  - now exists (String a b).
Qed.

Lemma trim_idempotent (s : string) : JS.trim (JS.trim s) = JS.trim s.
Proof.
  unfold JS.trim.
  destruct (trimStart_head s) as [E|[c [r [E W]]]]; rewrite E.
  - reflexivity.
  - destruct (trimEnd_keeps_head c r W) as [r' E'].
    rewrite E'.
    assert (S : JS.trimStart (String c r') = String c r').
    { simpl. now rewrite W. }
    rewrite S, <- E'. apply trimEnd_idempotent.
Qed.

Lemma trim_length (s : string) :
  String.length (JS.trim s) <= String.length s.
Proof.
  unfold JS.trim.
  pose proof (trimEnd_length (JS.trimStart s)).
  pose proof (trimStart_length s). lia.
Qed.

Lemma string_length_append (a b : string) :
  String.length (a ++ b) = String.length a + String.length b.
Proof.
  induction a as [|c r IH]; simpl; [reflexivity|]. now rewrite IH.
Qed.

Lemma substring0_length (n : nat) :
  forall s, String.length (Tools.substring0 n s) = Nat.min n (String.length s).
Proof.
  induction n as [|n IH]; intros s; [reflexivity|].
  destruct s as [|c r]; simpl; [reflexivity|]. now rewrite IH.
Qed.

End StringFacts.

(* ------------------------------------------------------------------ *)
(** ** Keyword validation and text truncation *)

(** X1. What [validateSearchKeywords] returns is never empty, holds at most
    10 keywords and no more than it was given; each of them is the trimmed
    form of a given keyword, is itself trimmed, is not empty and has at most
    100 characters. *)
Theorem validated_keywords_well_formed
  (keywords validKeywords : list string) :
  Tools.validateSearchKeywords keywords = Tools.Keywords validKeywords ->
  1 <= List.length validKeywords
  /\ List.length validKeywords <= 10
  /\ List.length validKeywords <= List.length keywords
  /\ Forall (fun k =>
               JS.trim k = k
               /\ 1 <= String.length k <= 100
               /\ exists given, In given keywords /\ k = JS.trim given)
       validKeywords.
Proof.
  unfold Tools.validateSearchKeywords.
  destruct (List.length keywords =? 0) eqn:E0; [discriminate|].
  destruct (10 <? List.length keywords) eqn:E10; [discriminate|].
  destruct (List.length (filter Tools.validKeyword keywords) =? 0) eqn:Ev;
    [discriminate|].
  intros H. injection H as <-.
  apply Nat.eqb_neq in Ev. apply Nat.ltb_ge in E10.
  pose proof (filter_length_le Tools.validKeyword keywords) as Hle.
  rewrite length_map.
  repeat apply conj; try lia.
  apply Forall_forall. intros k Hk.
  apply in_map_iff in Hk. destruct Hk as [given [<- Hgiven]].
  apply filter_In in Hgiven. destruct Hgiven as [Hin Hvalid].
  unfold Tools.validKeyword in Hvalid.
  apply andb_true_iff in Hvalid. destruct Hvalid as [Hpos Hmax].
  apply Nat.ltb_lt in Hpos. apply Nat.leb_le in Hmax.
  pose proof (trim_length given).
  repeat apply conj; try lia.
  - apply trim_idempotent.
  - now exists given.
Qed.

Lemma validated_keywords_well_formed_witness :
  1 <= List.length ["breach of warranty"; "defect"]
  /\ List.length ["breach of warranty"; "defect"] <= 10
  /\ List.length ["breach of warranty"; "defect"]
     <= List.length ["  breach of warranty "; "   "; "defect"]
  /\ Forall (fun k =>
               JS.trim k = k
               /\ 1 <= String.length k <= 100
               /\ exists given,
                   In given ["  breach of warranty "; "   "; "defect"]
                   /\ k = JS.trim given)
       ["breach of warranty"; "defect"].
Proof.
  apply (validated_keywords_well_formed
           ["  breach of warranty "; "   "; "defect"]
           ["breach of warranty"; "defect"]).
  reflexivity.
Defined.

(** X2. [truncateText] returns at most [maxLength] characters plus the 79
    of its notice; a text longer than [maxLength] comes back as its first
    [maxLength] characters followed by the notice, so exactly 79 characters
    over [maxLength], and any other text comes back unchanged. *)
Theorem truncateText_length (text : string) (maxLength : nat) :
  String.length (Tools.truncateText (Some text) maxLength) <= maxLength + 79
  /\ (if String.length text <=? maxLength
      then Tools.truncateText (Some text) maxLength = text
      else Tools.truncateText (Some text) maxLength
           = (Tools.substring0 maxLength text ++ Tools.truncationNotice)%string
           /\ String.length (Tools.truncateText (Some text) maxLength)
              = maxLength + 79).
Proof.
  unfold Tools.truncateText.
  destruct (String.length text <=? maxLength) eqn:E.
  - rewrite orb_true_r. apply Nat.leb_le in E. split; [lia|reflexivity].
  - apply Nat.leb_gt in E.
    assert (T : JS.truthy text = true).
    { destruct text; [simpl in E; lia|reflexivity]. }
    rewrite T. simpl negb. cbv iota. simpl orb. cbv iota.
    assert (L : String.length
                  (Tools.substring0 maxLength text ++ Tools.truncationNotice)
                = maxLength + 79).
    { rewrite string_length_append, substring0_length.
      change (String.length Tools.truncationNotice) with 79. lia. }
    repeat apply conj; [lia|reflexivity|exact L].
Qed.

(* ------------------------------------------------------------------ *)
(** ** The PACER court helper *)






(* ------------------------------------------------------------------ *)
(** ** The generated jurisdiction mappings *)

Lemma lookup_In {V} (k : string) (o : list (string * V)) (v : V) :
  JS.lookup k o = Some v -> In (k, v) o.
Proof.
  induction o as [|[k' v'] o IH]; simpl; [discriminate|].
  destruct (String.eqb_spec k' k) as [->|].
  - intros H. injection H as ->. now left.
  - intros H. right. now apply IH.
Qed.

(** X4. No assignment of [generateMappingResources] overwrites another: the
    mappings are the seven category entries followed, variation by
    variation, by one entry per state name, so that every name of a state
    variation is mapped to the ids of all the courts whose lower-cased id
    begins with one of the variation's codes, whatever the directory. *)
Theorem generated_mappings_entries (courts : CourtCache) :
  Generator.generateMappingResources courts
  = Generator.categoryMappings courts
    ++ flat_map (variationEntries courts) Generator.stateVariations
  /\ (forall names codes name,
         In (names, codes) Generator.stateVariations ->
         In name names ->
         JS.lookup name (Generator.generateMappingResources courts)
         = Some (ids (filter (idHasCode codes) (all courts)))).
Proof.
  split; [reflexivity|].
  intros names codes name Hvar Hname.
  unfold Generator.stateVariations in Hvar. simpl in Hvar.
  repeat (destruct Hvar as [Hvar|Hvar];
          [injection Hvar as <- <-; simpl in Hname;
           repeat (destruct Hname as [<-|Hname]; [reflexivity|]);
           contradiction|]).
  contradiction.
Qed.

Lemma generated_mappings_entries_witness :
  JS.lookup "calif" (Generator.generateMappingResources sample)
  = Some (ids (filter (idHasCode ["ca"; "cal"]) (all sample))).
Proof.
  apply (proj2 (generated_mappings_entries sample)
           ["california"; "ca"; "calif"] ["ca"; "cal"] "calif").
  - left. reflexivity.
  - right. right. left. reflexivity.
Defined.

(** X5. The two state tables agree: for every key of [stateAbbreviations]
    the generated mappings hold exactly the ids of the courts that the
    generator's [findCourtsByState] returns for that key, and the resource
    manager's [resolveJurisdiction] hands that list back. *)
Theorem state_keys_agree_across_tables
  (courts : CourtCache) (stateName : string) (codes : list string) :
  JS.lookup stateName stateAbbreviations = Some codes ->
  Generator.findCourtsByState stateName courts
  = Some (filter (idHasCode codes) (all courts))
  /\ JS.lookup stateName (Generator.generateMappingResources courts)
     = Some (ids (filter (idHasCode codes) (all courts)))
  /\ CourtResourceManager.resolveJurisdiction
       (Some (Generator.generateMappingResources courts)) stateName
     = CourtResourceManager.Arr (ids (filter (idHasCode codes) (all courts))).
Proof.
  intros H.
  split; [now apply generator_findCourtsByState_known|].
  apply lookup_In in H.
  unfold stateAbbreviations in H. simpl in H.
  repeat (destruct H as [H|H];
          [injection H as <- <-; split; reflexivity|]).
  contradiction.
Qed.

Lemma state_keys_agree_across_tables_witness :
  Generator.findCourtsByState "new-york" sample
  = Some (filter (idHasCode ["ny"]) (all sample))
  /\ JS.lookup "new-york" (Generator.generateMappingResources sample)
     = Some (ids (filter (idHasCode ["ny"]) (all sample)))
  /\ CourtResourceManager.resolveJurisdiction
       (Some (Generator.generateMappingResources sample)) "new-york"
     = CourtResourceManager.Arr (ids (filter (idHasCode ["ny"]) (all sample))).
Proof.
  apply (state_keys_agree_across_tables sample "new-york" ["ny"]).
  reflexivity.
Defined.

(* ------------------------------------------------------------------ *)
(** ** The generated court files *)

Lemma court_types_partition (stateCourts : list CourtInfo) :
  List.length (filter (GeneratorFiles.hasJurisdiction "F") stateCourts)
  + List.length (filter (GeneratorFiles.hasJurisdiction "ST") stateCourts)
  + List.length (filter (GeneratorFiles.hasJurisdiction "FB") stateCourts)
  + List.length (filter GeneratorFiles.isLocal stateCourts)
  = List.length stateCourts.
Proof.
  induction stateCourts as [|c l IH]; [reflexivity|].
  cbn [filter].
  destruct (GeneratorFiles.hasJurisdiction "F" c) eqn:E1,
    (GeneratorFiles.hasJurisdiction "ST" c) eqn:E2,
    (GeneratorFiles.hasJurisdiction "FB" c) eqn:E3,
    (GeneratorFiles.isLocal c) eqn:E4;
    cbn [List.length]; try lia; exfalso;
    unfold GeneratorFiles.hasJurisdiction in E1, E2, E3;
    unfold GeneratorFiles.isLocal in E4; cbn [existsb] in E4;
    try (rewrite E1, E2, E3 in E4; discriminate E4);
    try (apply String.eqb_eq in E1; apply String.eqb_eq in E2; congruence);
    try (apply String.eqb_eq in E1; apply String.eqb_eq in E3; congruence);
    try (apply String.eqb_eq in E2; apply String.eqb_eq in E3; congruence).
Qed.

Lemma writeStateFiles_well_formed (courts : CourtCache) (sts : list string) :
  forallb (fun state =>
             match stateCodes state with Some _ => true | None => false end)
    sts = true ->
  incl sts GeneratorFiles.states ->
  exists written,
    GeneratorFiles.writeStateFiles sts courts = Some written
    /\ List.length written <= List.length sts
    /\ Forall wellFormedStateFile written.
Proof.
  induction sts as [|state rest IH]; intros Hcodes Hincl.
  - exists []. repeat apply conj; [reflexivity|simpl; lia|constructor].
  - cbn [forallb] in Hcodes. apply andb_true_iff in Hcodes.
    destruct Hcodes as [Hstate Hrest].
    destruct (IH Hrest) as [written [Hrun [Hlen Hall]]].
    { intros x Hx. apply Hincl. now right. }
    cbn [GeneratorFiles.writeStateFiles].
    unfold Generator.findCourtsByState.
    destruct (stateCodes state) as [codes|]; [|discriminate].
    rewrite Hrun.
    destruct (List.length (filter (idHasCode codes) (all courts)) =? 0)
      eqn:Hempty.
    + exists written. repeat apply conj; [reflexivity|simpl; lia|exact Hall].
    + apply Nat.eqb_neq in Hempty.
      eexists. repeat apply conj; [reflexivity|simpl; lia|].
      constructor; [|exact Hall].
      unfold wellFormedStateFile, GeneratorFiles.stateFile.
      cbn [GeneratorFiles.sf_state GeneratorFiles.sf_total_courts
           GeneratorFiles.sf_courts GeneratorFiles.types_federal
           GeneratorFiles.types_state GeneratorFiles.types_bankruptcy
           GeneratorFiles.types_local].
      repeat apply conj.
      * apply Hincl. now left.
      * reflexivity.
      * lia.
      * reflexivity.
      * unfold ids. rewrite !length_map. apply court_types_partition.
Qed.

(** X6. [generateStateResources] never raises and writes at most 50 files,
    each under [courts/states/] and named after one of the 50 states, none
    of them for a state without courts; in each file the four [court_types]
    lists (federal, state, bankruptcy, and local for every other
    jurisdiction code) together count every court of the file once. *)
Theorem state_files_partition_their_courts (courts : CourtCache) :
  exists written,
    GeneratorFiles.generateStateResources courts = Some written
    /\ List.length written <= 50
    /\ Forall wellFormedStateFile written.
Proof.
  apply (writeStateFiles_well_formed courts GeneratorFiles.states).
  - reflexivity.
  - intros x Hx. exact Hx.
Qed.

Lemma categorized_lengths (raw : list RawCourt) :
  let d := categorizeCourtsByJurisdiction raw in
  List.length (federal d) + List.length (state d)
  + List.length (federal_bankruptcy d) + List.length (military d)
  + List.length (special d) = List.length (all d).
Proof.
  intros d.
  assert (Hcat : forall k, category k d = filter (inCategory k) (all d)).
  { intros k. unfold d, categorizeCourtsByJurisdiction.
    rewrite fold_categorizeStep_category, fold_categorizeStep_all.
    now destruct k. }
  rewrite <- (filter_categories_length (all d)).
  rewrite <- (Hcat FEDERAL), <- (Hcat STATE), <- (Hcat FEDERAL_BANKRUPTCY),
    <- (Hcat MILITARY), <- (Hcat SPECIAL).
  reflexivity.
Qed.

(** X7. In the files [generateCourtResources] writes for a categorised
    listing, the [total_courts] of the five category files add up to the
    [total_courts] of [courts/all.json], whose five category counts are
    those same totals. *)
Theorem court_files_totals_add_up (raw : list RawCourt) :
  let files :=
    GeneratorFiles.generateCourtResources (categorizeCourtsByJurisdiction raw) in
  match files with
  | (_, allFile) :: categoryFiles =>
      list_sum (map (fun entry => GeneratorFiles.total_courts (snd entry))
                  categoryFiles)
      = GeneratorFiles.total_courts allFile
      /\ option_map
           (fun c => [GeneratorFiles.n_federal c; GeneratorFiles.n_state c;
                      GeneratorFiles.n_bankruptcy c;
                      GeneratorFiles.n_military c;
                      GeneratorFiles.n_special c])
           (GeneratorFiles.file_categories allFile)
         = Some (map (fun entry => GeneratorFiles.total_courts (snd entry))
                   categoryFiles)
      /\ map fst files
         = [ "courts/all.json"; "courts/federal.json"; "courts/state.json";
             "courts/bankruptcy.json"; "courts/military.json";
             "courts/special.json" ]
  | [] => False
  end.
Proof.
  cbn -[categorizeCourtsByJurisdiction].
  pose proof (categorized_lengths raw) as H. cbv zeta in H.
  repeat apply conj; [lia|reflexivity|reflexivity].
Qed.

(* ------------------------------------------------------------------ *)
(** ** The live suggestion engine *)

Lemma dedupFrom_spec (l : list string) :
  forall seen,
    NoDup (JS.dedupFrom seen l)
    /\ (forall x, In x (JS.dedupFrom seen l) -> In x l /\ ~ In x seen).
Proof.
  induction l as [|y r IH]; intros seen; simpl.
  - split; [constructor|contradiction].
  - destruct (existsb (String.eqb y) seen) eqn:E.
    + destruct (IH seen) as [Hnd Hin]. split; [exact Hnd|].
      intros x Hx. destruct (Hin x Hx). split; [now right|assumption].
    + destruct (IH (y :: seen)) as [Hnd Hin]. split.
      * constructor; [|exact Hnd].
        intros Hy. destruct (Hin y Hy) as [_ Hnot]. apply Hnot. now left.
      * intros x [<-|Hx].
        -- split; [now left|].
           intros Hseen.
           assert (existsb (String.eqb y) seen = true).
           { apply existsb_exists. exists y. split; [assumption|].
             apply String.eqb_refl. }
           congruence.
        -- destruct (Hin x Hx) as [Hr Hnot]. split; [now right|].
           intros Hseen. apply Hnot. now right.
Qed.

Lemma firstn_incl {A} (n : nat) (l : list A) (x : A) :
  In x (firstn n l) -> In x l.
Proof.
  revert l. induction n as [|n IH]; intros [|y l]; simpl; try contradiction.
  intros [->|H]; [now left|right; now apply IH].
Qed.

Lemma firstn_NoDup_kept {A} (n : nat) (l : list A) :
  NoDup l -> NoDup (firstn n l).
Proof.
  revert l. induction n as [|n IH]; intros [|y l] H; simpl;
    try constructor.
  - inversion H; subst. intros Hin. apply firstn_incl in Hin. contradiction.
  - inversion H; subst. now apply IH.
Qed.

Lemma pushIf_In (cond : bool) (l : list string) (k x : string) :
  In x (Live.pushIf cond l k) -> In x l \/ x = k.
Proof.
  unfold Live.pushIf, push. destruct cond; [|now left].
  intros H. apply in_app_or in H. destruct H as [H|[<-|[]]]; auto.
Qed.

Lemma keywordSuggestions_In (normalized : string) (base : list string)
  (x : string) :
  In x (Live.keywordSuggestions normalized base) ->
  In x base \/ In x suggestionKeywords.
Proof.
  unfold Live.keywordSuggestions. cbv zeta. intros H.
  repeat (apply pushIf_In in H;
          destruct H as [H| ->]; [|right; simpl; tauto]).
  now left.
Qed.

(** X8. The live suggestion engine returns at most 5 suggestions, without
    duplicates; each one is the id of one of the first 100 courts of the
    cached directory or one of the 14 keys its keyword triggers know; with
    no cache there is no suggestion. *)
Theorem live_suggestions_bounded_and_grounded
  (cache : option CourtCache) (input : string) :
  let suggestions := Live.suggestSimilarJurisdictions cache input in
  List.length suggestions <= 5
  /\ NoDup suggestions
  /\ Forall (fun s =>
               In s (ids (JS.slice0 100 (cachedCourts cache)))
               \/ In s suggestionKeywords) suggestions
  /\ Live.suggestSimilarJurisdictions None input = [].
Proof.
  intros suggestions. unfold suggestions, Live.suggestSimilarJurisdictions.
  destruct cache as [courtCache|].
  - repeat apply conj.
    + apply firstn_le_length.
    + apply firstn_NoDup_kept. apply dedupFrom_spec.
    + apply Forall_forall. intros s Hs.
      apply firstn_incl in Hs.
      apply (dedupFrom_spec _ []) in Hs. destruct Hs as [Hs _].
      apply keywordSuggestions_In in Hs. destruct Hs as [Hs|Hs]; [|now right].
      left. unfold ids in *. apply in_map_iff in Hs.
      destruct Hs as [c [<- Hc]]. apply filter_In in Hc.
      apply in_map. apply Hc.
    + reflexivity.
  - repeat apply conj; [simpl; lia|constructor|constructor|reflexivity].
Qed.

(* ------------------------------------------------------------------ *)
(** ** More on the live resolver *)

Section LiveResolverMore.

Variable courtCache : CourtCache.

Lemma resolveByStateOrName_nonempty (jurisdiction normalized lowerOriginal : string) :
  Live.resolveByStateOrName courtCache jurisdiction normalized lowerOriginal
  <> Resolved [].
Proof.
  unfold Live.resolveByStateOrName.
  destruct (Live.findCourtsByState (Some courtCache) lowerOriginal)
    as [[|x r]|]; try discriminate.
  destruct (Live.findCourtsByState (Some courtCache) normalized)
    as [[|x r]|]; try discriminate.
  destruct (filter (Live.nameIncludes normalized) (all courtCache));
    unfold unrecognized; discriminate.
Qed.

(** X9. The live resolver returns the empty list only through the sentinel
    switch (the keyword "all", or a category keyword of an empty category)
    or for a token with a comma; the exact-id, state and name strategies
    return at least one id or raise. *)
Theorem empty_resolution_only_by_sentinel_or_comma (jurisdiction : string) :
  Live.resolveAgainst courtCache jurisdiction = Resolved [] ->
  Live.sentinel courtCache (normalize jurisdiction) = Some []
  \/ JS.includes jurisdiction "," = true.
Proof.
  unfold Live.resolveAgainst. fold (normalize jurisdiction).
  destruct (Live.sentinel courtCache (normalize jurisdiction)) as [l|].
  - intros H. injection H as ->. now left.
  - destruct (JS.includes jurisdiction ","); [now right|].
    destruct (knownId (all courtCache) jurisdiction); [discriminate|].
    intros H. now apply resolveByStateOrName_nonempty in H.
Qed.

End LiveResolverMore.

Lemma empty_resolution_only_by_sentinel_or_comma_witness :
  Live.sentinel sample (normalize "ALL") = Some []
  \/ JS.includes "ALL" "," = true.
Proof.
  apply (empty_resolution_only_by_sentinel_or_comma sample "ALL").
  reflexivity.
Defined.

Lemma knownId_of_In (l : list CourtInfo) (c : CourtInfo) :
  In c l -> knownId l (id c) = true.
Proof.
  intros H. unfold knownId. apply existsb_exists.
  exists c. split; [exact H|apply String.eqb_refl].
Qed.

Lemma knownId_ids (l sub : list CourtInfo) :
  incl sub l -> Forall (fun i => knownId l i = true) (ids sub).
Proof.
  intros Hincl. apply Forall_forall. intros i Hi.
  unfold ids in Hi. apply in_map_iff in Hi. destruct Hi as [c [<- Hc]].
  apply knownId_of_In. now apply Hincl.
Qed.

Lemma categorized_category (raw : list RawCourt) (k : Category) :
  category k (categorizeCourtsByJurisdiction raw)
  = filter (inCategory k) (all (categorizeCourtsByJurisdiction raw)).
Proof.
  unfold categorizeCourtsByJurisdiction.
  rewrite fold_categorizeStep_category, fold_categorizeStep_all.
  now destruct k.
Qed.

Lemma categorized_category_incl (raw : list RawCourt) (k : Category) :
  incl (category k (categorizeCourtsByJurisdiction raw))
    (all (categorizeCourtsByJurisdiction raw)).
Proof.
  rewrite categorized_category. intros c Hc.
  apply filter_In in Hc. apply Hc.
Qed.

(** X10. Against a directory built by the categoriser the live resolver
    never returns an id that is not the id of a court of the directory,
    whichever strategy answers. *)
Theorem resolved_ids_belong_to_directory
  (raw : list RawCourt) (jurisdiction : string) (courtIds : list string) :
  let d := categorizeCourtsByJurisdiction raw in
  Live.resolveAgainst d jurisdiction = Resolved courtIds ->
  Forall (fun i => knownId (all d) i = true) courtIds.
Proof.
  intros d. unfold Live.resolveAgainst.
  destruct (Live.sentinel d _) as [l|] eqn:Hs.
  - intros H. injection H as <-.
    unfold Live.sentinel in Hs.
    repeat match type of Hs with
           | (if ?b then _ else _) = _ => destruct b
           end;
      try discriminate; injection Hs as <-; try constructor.
    + apply knownId_ids, (categorized_category_incl raw FEDERAL).
    + apply knownId_ids, (categorized_category_incl raw STATE).
    + apply knownId_ids, (categorized_category_incl raw FEDERAL_BANKRUPTCY).
    + apply knownId_ids, (categorized_category_incl raw FEDERAL_BANKRUPTCY).
    + apply knownId_ids, (categorized_category_incl raw MILITARY).
    + apply knownId_ids, (categorized_category_incl raw SPECIAL).
  - destruct (JS.includes jurisdiction ",").
    + intros H. injection H as <-.
      apply Forall_forall. intros i Hi. apply filter_In in Hi. apply Hi.
    + destruct (knownId (all d) jurisdiction) eqn:Hk.
      * intros H. injection H as <-. constructor; [exact Hk|constructor].
      * unfold Live.resolveByStateOrName.
        assert (Hstate : forall name found,
                   Live.findCourtsByState (Some d) name = Some found ->
                   Forall (fun i => knownId (all d) i = true) found).
        { intros name found. unfold Live.findCourtsByState.
          destruct (stateCodes name) as [codes|].
          - intros H. injection H as <-. apply knownId_ids.
            intros c Hc. apply filter_In in Hc. destruct Hc as [Hc _].
            now apply (categorized_category_incl raw STATE).
          - destruct (state d); [|discriminate].
            intros H. injection H as <-. constructor. }
        destruct (Live.findCourtsByState (Some d) (JS.toLowerCase jurisdiction))
          as [[|x r]|] eqn:H1; try discriminate.
        -- destruct (Live.findCourtsByState (Some d)
                       (JS.stripSeparators (JS.toLowerCase jurisdiction)))
             as [[|x r]|] eqn:H2; try discriminate.
           ++ destruct (filter _ (all d)) as [|p ps] eqn:Hp;
                [unfold unrecognized; discriminate|].
              intros H.
              assert (E : ids (JS.slice0 50 (p :: ps)) = courtIds)
                by (injection H; intros E'; exact E').
              rewrite <- E. apply knownId_ids.
              intros c Hc. apply firstn_incl in Hc.
              rewrite <- Hp in Hc. apply filter_In in Hc. apply Hc.
           ++ intros H. injection H as <-. exact (Hstate _ _ H2).
        -- intros H. injection H as <-. exact (Hstate _ _ H1).
Qed.

Lemma resolved_ids_belong_to_directory_witness :
  Forall (fun i =>
            knownId (all (categorizeCourtsByJurisdiction Generator.sampleAllCourts))
              i = true)
    ["cal"].
Proof.
  apply (resolved_ids_belong_to_directory Generator.sampleAllCourts
           "California" ["cal"]).
  reflexivity.
Defined.

Lemma sentinel_category (d : CourtCache) (normalized : string) (k : Category) :
  keywordCategory normalized = Some k ->
  Live.sentinel d normalized = Some (ids (category k d)).
Proof.
  unfold keywordCategory, Live.sentinel.
  destruct (String.eqb_spec normalized "all") as [->|_]; [discriminate|].
  repeat match goal with
         | |- context [String.eqb normalized ?s] =>
             destruct (String.eqb normalized s);
             [intros H; injection H as <-; reflexivity|]
         end.
  discriminate.
Qed.

(** X11. A token that normalises (lower case, hyphens, underscores and
    white space removed) to a category keyword resolves, on the directory
    built from a listing, to the ids of the usable records of the listing
    that fall in that category, in listing order; "bankruptcy" and
    "federalbankruptcy" both stand for FEDERAL_BANKRUPTCY. *)
Theorem category_keyword_resolves_to_bucket
  (raw : list RawCourt) (jurisdiction : string) (k : Category) :
  keywordCategory (normalize jurisdiction) = Some k ->
  Live.resolveAgainst (categorizeCourtsByJurisdiction raw) jurisdiction
  = Resolved (ids (filter (inCategory k)
                     (map courtInfoOf (filter usable raw)))).
Proof.
  intros H. unfold Live.resolveAgainst. fold (normalize jurisdiction).
  rewrite (sentinel_category _ _ _ H), categorized_category.
  unfold categorizeCourtsByJurisdiction at 1.
  now rewrite fold_categorizeStep_all.
Qed.

Lemma category_keyword_resolves_to_bucket_witness :
  Live.resolveAgainst (categorizeCourtsByJurisdiction Generator.sampleAllCourts)
    "Federal_Bankruptcy"
  = Resolved (ids (filter (inCategory FEDERAL_BANKRUPTCY)
                     (map courtInfoOf
                        (filter usable Generator.sampleAllCourts)))).
Proof.
  apply (category_keyword_resolves_to_bucket Generator.sampleAllCourts
           "Federal_Bankruptcy" FEDERAL_BANKRUPTCY).
  reflexivity.
Defined.

(* ------------------------------------------------------------------ *)
(** ** The court parameter and the comma strategy *)

Lemma splitComma_plain (a : string) :
  JS.includes a "," = false -> JS.splitComma a = [a].
Proof.
  induction a as [|c r IH]; [reflexivity|].
  rewrite includes_comma_cons. intros H.
  apply orb_false_iff in H. destruct H as [Hc Hr].
  simpl. rewrite Hc, (IH Hr). reflexivity.
Qed.

Lemma splitComma_app_comma (a b : string) :
  JS.includes a "," = false ->
  JS.splitComma (a ++ String "," b) = a :: JS.splitComma b.
Proof.
  induction a as [|c r IH]; [reflexivity|].
  rewrite includes_comma_cons. intros H.
  apply orb_false_iff in H. destruct H as [Hc Hr].
  simpl. rewrite Hc, (IH Hr). reflexivity.
Qed.

Lemma includes_app_comma (a b : string) :
  JS.includes (a ++ String "," b) "," = true.
Proof.
  induction a as [|c r IH]; [reflexivity|].
  change (String c r ++ String "," b)%string
    with (String c (r ++ String "," b)).
  rewrite includes_comma_cons, IH. apply orb_true_r.
Qed.

Lemma join_cons (x y : string) (l : list string) :
  Tools.join "," (x :: y :: l) = (x ++ String "," (Tools.join "," (y :: l)))%string.
Proof. reflexivity. Qed.

Lemma splitComma_join (l : list string) :
  l <> [] ->
  forallb (fun i => negb (JS.includes i ",")) l = true ->
  JS.splitComma (Tools.join "," l) = l.
Proof.
  induction l as [|x [|y l] IH]; intros Hne Hplain.
  - contradiction.
  - simpl in Hplain. rewrite andb_true_r in Hplain.
    apply negb_true_iff in Hplain. now apply splitComma_plain.
  - cbn [forallb] in Hplain. apply andb_true_iff in Hplain.
    destruct Hplain as [Hx Hrest]. apply negb_true_iff in Hx.
    rewrite join_cons, splitComma_app_comma by exact Hx.
    f_equal. apply IH; [discriminate|exact Hrest].
Qed.

(** X12. The court parameter round-trips through the comma strategy: a list
    of at least two ids of the directory, each without a comma and without
    white space at its ends, is sent as its ids joined by commas, and the
    live resolver resolves that string back to the same list. *)
Theorem court_param_round_trip (courtCache : CourtCache)
  (targetCourts : list string) :
  2 <= List.length targetCourts ->
  forallb (fun i =>
             knownId (all courtCache) i && negb (JS.includes i ",")
             && String.eqb (JS.trim i) i) targetCourts = true ->
  Tools.courtParam targetCourts = Some (Tools.join "," targetCourts)
  /\ Live.resolveAgainst courtCache (Tools.join "," targetCourts)
     = Resolved targetCourts.
Proof.
  intros Hlen Hall.
  assert (Hknown : forallb (knownId (all courtCache)) targetCourts = true).
  { apply forallb_forall. intros i Hi.
    pose proof (proj1 (forallb_forall _ _) Hall i Hi) as H.
    apply andb_true_iff in H. destruct H as [H _].
    apply andb_true_iff in H. apply H. }
  assert (Hplain : forallb (fun i => negb (JS.includes i ",")) targetCourts = true).
  { apply forallb_forall. intros i Hi.
    pose proof (proj1 (forallb_forall _ _) Hall i Hi) as H.
    apply andb_true_iff in H. destruct H as [H _].
    apply andb_true_iff in H. apply H. }
  assert (Htrim : map JS.trim targetCourts = targetCourts).
  { rewrite <- (map_id targetCourts) at 2. apply map_ext_in. intros i Hi.
    pose proof (proj1 (forallb_forall _ _) Hall i Hi) as H.
    apply andb_true_iff in H. destruct H as [_ H].
    now apply String.eqb_eq in H. }
  split.
  - unfold Tools.courtParam.
    destruct targetCourts; [simpl in Hlen; lia|reflexivity].
  - rewrite resolveAgainst_comma.
    + rewrite splitComma_join, Htrim.
      * f_equal. clear - Hknown.
        induction targetCourts as [|i l IH]; [reflexivity|].
        simpl in Hknown |- *. apply andb_true_iff in Hknown.
        destruct Hknown as [Hi Hl]. rewrite Hi. f_equal. now apply IH.
      * destruct targetCourts; [simpl in Hlen; lia|discriminate].
      * exact Hplain.
    + destruct targetCourts as [|x [|y l]]; try (simpl in Hlen; lia).
      rewrite join_cons. apply includes_app_comma.
Qed.

Lemma court_param_round_trip_witness :
  Tools.courtParam ["ca9"; "nysd"; "scotus"]
  = Some (Tools.join "," ["ca9"; "nysd"; "scotus"])
  /\ Live.resolveAgainst sample (Tools.join "," ["ca9"; "nysd"; "scotus"])
     = Resolved ["ca9"; "nysd"; "scotus"].
Proof.
  apply (court_param_round_trip sample ["ca9"; "nysd"; "scotus"]).
  - simpl. lia.
  - reflexivity.
Defined.

(* ------------------------------------------------------------------ *)
(** ** State keys and their separators *)

Lemma inherited_never_collapses_to_state (stateName : string) :
  JS.inheritedKey stateName = true ->
  JS.lookup (JS.stripSeparators stateName) stateAbbreviations = None.
Proof.
  unfold JS.inheritedKey. intros H.
  apply existsb_exists in H. destruct H as [key [Hin Heq]].
  apply String.eqb_eq in Heq. subst key.
  unfold JS.inheritedKeys in Hin. simpl in Hin.
  repeat (destruct Hin as [<-|Hin]; [reflexivity|]).
  contradiction.
Qed.

Lemma state_key_collapses_to_same_codes (stateName : string)
  (own : list string) :
  JS.lookup stateName stateAbbreviations = Some own ->
  JS.lookup (JS.stripSeparators stateName) stateAbbreviations = Some own.
Proof.
  intros H. apply lookup_In in H.
  unfold stateAbbreviations in H. simpl in H.
  repeat (destruct H as [H|H]; [injection H as <- <-; reflexivity|]).
  contradiction.
Qed.

(** X13. A state name is looked up with its hyphens, underscores and white
    space ignored: whenever the name without them is a key of the
    abbreviation table, the name gets that key's codes, and the live state
    lookup returns the state-category courts whose lower-cased id begins
    with one of them. *)
Theorem state_name_separators_ignored
  (courtCache : CourtCache) (stateName : string) (codes : list string) :
  JS.lookup (JS.stripSeparators stateName) stateAbbreviations = Some codes ->
  stateCodes stateName = Some codes
  /\ Live.findCourtsByState (Some courtCache) stateName
     = Some (ids (filter (idHasCode codes) (state courtCache))).
Proof.
  intros H.
  assert (E : stateCodes stateName = Some codes).
  { unfold stateCodes.
    destruct (JS.lookup stateName stateAbbreviations) as [own|] eqn:Hown.
    - apply state_key_collapses_to_same_codes in Hown. congruence.
    - destruct (JS.inheritedKey stateName) eqn:Hinh.
      + apply inherited_never_collapses_to_state in Hinh. congruence.
      + now rewrite H. }
  split; [exact E|].
  unfold Live.findCourtsByState. now rewrite E.
Qed.

Lemma state_name_separators_ignored_witness :
  stateCodes "new_york" = Some ["ny"]
  /\ Live.findCourtsByState (Some sample) "new_york"
     = Some (ids (filter (idHasCode ["ny"]) (state sample))).
Proof.
  apply (state_name_separators_ignored sample "new_york" ["ny"]).
  reflexivity.
Defined.

(* ------------------------------------------------------------------ *)
(** ** Live acquisition of a finite listing *)

Section FiniteListing.

Variable api : Live.Endpoint.

Lemma pagesFrom_S (page n : nat) :
  pagesFrom api page (S n)
  = match api page with
    | Some response => Live.results response
    | None => []
    end ++ pagesFrom api (S page) n.
Proof. reflexivity. Qed.

Lemma paginate_collects (k : nat) :
  forall fuel (allCourts : list RawCourt) page,
    (forall i, i < k ->
               exists response,
                 api (page + i) = Some response /\ Live.next response = true) ->
    (exists response,
        api (page + k) = Some response /\ Live.next response = false) ->
    List.length (allCourts ++ pagesFrom api page k) < 4000 ->
    k + 2 <= fuel ->
    Live.paginate fuel api allCourts page true
    = Live.Returned (allCourts ++ pagesFrom api page (S k)).
Proof.
  induction k as [|k IH]; intros fuel allCourts page Hmore Hlast Hlen Hfuel.
  - destruct fuel as [|[|fuel]]; try lia.
    destruct Hlast as [response [Hpage Hnext]].
    rewrite Nat.add_0_r in Hpage.
    unfold pagesFrom in Hlen. cbn [seq flat_map] in Hlen.
    rewrite app_nil_r in Hlen.
    cbn [Live.paginate]. cbn [andb].
    rewrite (proj2 (Nat.ltb_lt _ _) Hlen), Hpage, Hnext.
    cbn [andb]. rewrite pagesFrom_S, Hpage.
    unfold pagesFrom. cbn [seq flat_map]. now rewrite app_nil_r.
  - destruct fuel as [|fuel]; try lia.
    destruct (Hmore 0) as [response [Hpage Hnext]]; [lia|].
    rewrite Nat.add_0_r in Hpage.
    rewrite pagesFrom_S, Hpage in Hlen.
    assert (Hacc : List.length allCourts < 4000).
    { rewrite !length_app in Hlen. clear - Hlen. lia. }
    cbn [Live.paginate]. cbn [andb].
    rewrite (proj2 (Nat.ltb_lt _ _) Hacc), Hpage, Hnext.
    rewrite (IH fuel (allCourts ++ Live.results response) (page + 1)).
    + rewrite (pagesFrom_S page (S k)), Hpage, <- app_assoc.
      now rewrite Nat.add_1_r.
    + intros i Hi. destruct (Hmore (S i)) as [r [Hr Hn]]; [lia|].
      exists r. split; [|exact Hn].
      now replace (page + 1 + i) with (page + S i) by lia.
    + destruct Hlast as [r [Hr Hn]]. exists r. split; [|exact Hn].
      now replace (page + 1 + k) with (page + S k) by lia.
    + rewrite <- app_assoc, Nat.add_1_r. exact Hlen.
    + clear - Hfuel. lia.
Qed.

(** X14. On a listing of [n] pages (each page but the last announcing a
    further one) whose first [n - 1] pages hold fewer than 4000 records,
    [discoverCourts] returns the records of pages 1 to [n] in page order:
    no page is skipped, fetched twice or cut. *)
Theorem finite_listing_collected_in_order (n fuel : nat) :
  (forall page, 1 <= page < S n ->
                exists response,
                  api page = Some response /\ Live.next response = true) ->
  (exists response,
      api (S n) = Some response /\ Live.next response = false) ->
  List.length (pagesThrough api n) < 4000 ->
  n + 2 <= fuel ->
  Live.discoverCourts fuel api = Some (pagesThrough api (S n)).
Proof.
  intros Hmore Hlast Hlen Hfuel.
  unfold Live.discoverCourts.
  rewrite (paginate_collects n fuel [] 1).
  - reflexivity.
  - intros i Hi. apply Hmore. lia.
  - now replace (1 + n) with (S n) by lia.
  - exact Hlen.
  - exact Hfuel.
Qed.

End FiniteListing.

Lemma finite_listing_collected_in_order_witness :
  Live.discoverCourts 4
    (fun page =>
       Some {| Live.results := Generator.sampleAllCourts;
               Live.next := page <=? 2 |})
  = Some (pagesThrough
            (fun page =>
               Some {| Live.results := Generator.sampleAllCourts;
                       Live.next := page <=? 2 |}) 3).
Proof.
  apply (finite_listing_collected_in_order
           (fun page =>
              Some {| Live.results := Generator.sampleAllCourts;
                      Live.next := page <=? 2 |}) 2 4).
  - intros page Hpage. eexists. split; [reflexivity|].
    apply Nat.leb_le. lia.
  - eexists. split; reflexivity.
  - vm_compute. lia.
  - lia.
Defined.

(* ------------------------------------------------------------------ *)
(** ** The cache between two refreshes *)

(** X15. Once [ensureCourtCache] has refreshed the cache at time [now], any
    later call up to and including [now] + 15 days returns the same
    snapshot without touching the endpoint, whatever the endpoint would
    answer, and [resolveJurisdiction] then gives the same answer and leaves
    the same state as the call that refreshed; the first instant at which a
    call refreshes again is one millisecond after that. *)
Theorem cache_reused_until_expiry
  (fuel : nat) (api : Live.Endpoint) (now : Z) (s s' : Live.Server) :
  Live.needsRefresh s now = true ->
  Live.ensureCourtCache fuel api now s = Some s' ->
  (forall fuel' api' later,
      (later <= now + Live.CACHE_DURATION)%Z ->
      Live.ensureCourtCache fuel' api' later s' = Some s'
      /\ forall jurisdiction,
          Live.resolveJurisdiction fuel' api' later s' jurisdiction
          = Live.resolveJurisdiction fuel api now s jurisdiction)
  /\ Live.needsRefresh s' (now + Live.CACHE_DURATION + 1)%Z = true
  /\ Live.CACHE_DURATION = 1296000000%Z.
Proof.
  intros Hstale Hrun.
  unfold Live.resolveJurisdiction. rewrite Hrun.
  unfold Live.ensureCourtCache in Hrun. rewrite Hstale in Hrun.
  destruct (Live.discoverCourts fuel api) as [courts|]; [|discriminate].
  injection Hrun as <-.
  repeat apply conj.
  - intros fuel' api' later Hlater.
    assert (E : Live.ensureCourtCache fuel' api' later
                  (Live.refreshed now courts)
                = Some (Live.refreshed now courts)).
    { unfold Live.ensureCourtCache, Live.needsRefresh, Live.refreshed.
      cbn [Live.courtCache Live.cacheExpiry].
      now rewrite (proj2 (Z.ltb_ge _ _) Hlater). }
    split; [exact E|].
    intros jurisdiction. now rewrite E.
  - unfold Live.needsRefresh, Live.refreshed.
    cbn [Live.courtCache Live.cacheExpiry].
    apply Z.ltb_lt. lia.
  - reflexivity.
Qed.

Lemma cache_reused_until_expiry_witness :
  (forall fuel' api' later,
      (later <= 1 + Live.CACHE_DURATION)%Z ->
      Live.ensureCourtCache fuel' api' later
        (Live.refreshed 1%Z Generator.sampleAllCourts)
      = Some (Live.refreshed 1%Z Generator.sampleAllCourts)
      /\ forall jurisdiction,
          Live.resolveJurisdiction fuel' api' later
            (Live.refreshed 1%Z Generator.sampleAllCourts) jurisdiction
          = Live.resolveJurisdiction 2
              (fun _ => Some {| Live.results := Generator.sampleAllCourts;
                                Live.next := false |})
              1%Z staleServer jurisdiction)
  /\ Live.needsRefresh (Live.refreshed 1%Z Generator.sampleAllCourts)
       (1 + Live.CACHE_DURATION + 1)%Z = true
  /\ Live.CACHE_DURATION = 1296000000%Z.
Proof.
  apply (cache_reused_until_expiry 2
           (fun _ => Some {| Live.results := Generator.sampleAllCourts;
                             Live.next := false |})
           1%Z staleServer).
  - reflexivity.
  - reflexivity.
Defined.

(* ------------------------------------------------------------------ *)
(** ** More on the categoriser *)

(** X16. Categorising two listings one after the other gives, in [all] and
    in every category, the sequence for the first followed by the sequence
    for the second: page boundaries leave no trace in the directory. *)
Theorem categorizer_distributes_over_append (a b : list RawCourt) :
  all (categorizeCourtsByJurisdiction (a ++ b))
  = all (categorizeCourtsByJurisdiction a)
    ++ all (categorizeCourtsByJurisdiction b)
  /\ forall k,
      category k (categorizeCourtsByJurisdiction (a ++ b))
      = category k (categorizeCourtsByJurisdiction a)
        ++ category k (categorizeCourtsByJurisdiction b).
Proof.
  unfold categorizeCourtsByJurisdiction. split.
  - rewrite !fold_categorizeStep_all. cbn [all emptyCache app].
    now rewrite filter_app, map_app.
  - intros k. rewrite !fold_categorizeStep_category.
    assert (E : category k emptyCache = []) by now destruct k.
    rewrite E. cbn [app].
    now rewrite filter_app, map_app, filter_app.
Qed.

Lemma orElse_truthy (f : option string) (d : string) :
  JS.truthy d = true -> JS.truthy (JS.orElse f d) = true.
Proof.
  intros H. unfold JS.orElse.
  destruct f as [s|]; [|exact H].
  destruct (JS.truthy s) eqn:E; assumption.
Qed.

Lemma usable_named (court : RawCourt) :
  usable court = true -> namedCourt (courtInfoOf court) = true.
Proof.
  unfold usable, namedCourt, courtInfoOf. intros H.
  apply andb_true_iff in H. destruct H as [Hid Hjur].
  cbn [id short_name full_name jurisdiction].
  assert (Ei : JS.truthy (JS.orElse (raw_id court) "") = true).
  { destruct (raw_id court) as [s|]; [|discriminate].
    simpl in Hid |- *. now rewrite Hid. }
  assert (Ej : JS.truthy (JS.orElse (raw_jurisdiction court) "") = true).
  { destruct (raw_jurisdiction court) as [s|]; [|discriminate].
    simpl in Hjur |- *. now rewrite Hjur. }
  rewrite Ei, Ej, !orElse_truthy; auto using orElse_truthy.
Qed.

(** X17. Every record of a categorised directory, in [all] and in each
    category, has a non-empty id, short name, full name and jurisdiction
    code: a missing or empty full name falls back to the short name, and
    that to the id. *)
Theorem categorized_courts_are_named (raw : list RawCourt) :
  let d := categorizeCourtsByJurisdiction raw in
  forallb namedCourt (all d) = true
  /\ forall k, forallb namedCourt (category k d) = true.
Proof.
  intros d.
  assert (Hall : forallb namedCourt (all d) = true).
  { apply forallb_forall. intros c Hc.
    unfold d, categorizeCourtsByJurisdiction in Hc.
    rewrite fold_categorizeStep_all in Hc. cbn [all emptyCache app] in Hc.
    apply in_map_iff in Hc. destruct Hc as [court [<- Hcourt]].
    apply filter_In in Hcourt. now apply usable_named. }
  split; [exact Hall|].
  intros k. apply forallb_forall. intros c Hc.
  apply (categorized_category_incl raw k) in Hc.
  exact (proj1 (forallb_forall _ _) Hall c Hc).
Qed.

(* ------------------------------------------------------------------ *)
(** ** Court-level filtering *)

Lemma atLevel_trial (c : CourtInfo) :
  LiveTools.atLevel "trial" c = String.eqb (jurisdiction c) "ST".
Proof.
  unfold LiveTools.atLevel.
  change (String.eqb "trial" "trial") with true.
  change (String.eqb "trial" "appellate") with false.
  change (String.eqb "trial" "supreme") with false.
  cbn [andb]. now destruct (String.eqb (jurisdiction c) "ST").
Qed.

Lemma inCategory_state (c : CourtInfo) :
  inCategory STATE c = String.eqb (jurisdiction c) "ST".
Proof.
  unfold inCategory, bucket.
  destruct (String.eqb_spec (jurisdiction c) "F") as [E|_];
    [now rewrite E|].
  destruct (String.eqb (jurisdiction c) "ST"); [reflexivity|].
  destruct (String.eqb (jurisdiction c) "FB"); [reflexivity|].
  destruct (String.eqb (jurisdiction c) "MA"); [reflexivity|].
  destruct (String.eqb (jurisdiction c) "FS"); reflexivity.
Qed.

Lemma inCategory_federal (c : CourtInfo) :
  inCategory FEDERAL c = String.eqb (jurisdiction c) "F".
Proof.
  unfold inCategory, bucket.
  destruct (String.eqb (jurisdiction c) "F"); [reflexivity|].
  destruct (String.eqb (jurisdiction c) "ST"); [reflexivity|].
  destruct (String.eqb (jurisdiction c) "FB"); [reflexivity|].
  destruct (String.eqb (jurisdiction c) "MA"); [reflexivity|].
  destruct (String.eqb (jurisdiction c) "FS"); reflexivity.
Qed.

Lemma filter_all_kept {A} (f : A -> bool) (l : list A) :
  forallb f l = true -> filter f l = l.
Proof.
  induction l as [|x l IH]; simpl; [reflexivity|].
  intros H. apply andb_true_iff in H. destruct H as [Hx Hl].
  now rewrite Hx, IH.
Qed.

Lemma trial_courts_are_state_category (raw : list RawCourt) :
  filter (LiveTools.atLevel "trial") (all (categorizeCourtsByJurisdiction raw))
  = state (categorizeCourtsByJurisdiction raw).
Proof.
  change (state (categorizeCourtsByJurisdiction raw))
    with (category STATE (categorizeCourtsByJurisdiction raw)).
  rewrite categorized_category.
  apply filter_ext. intros c. now rewrite atLevel_trial, inCategory_state.
Qed.

Lemma applyCourtLevel_trial (raw : list RawCourt) (l : list string) :
  LiveTools.applyCourtLevel (Some (categorizeCourtsByJurisdiction raw))
    "trial" l
  = filter (knownId (state (categorizeCourtsByJurisdiction raw))) l.
Proof.
  unfold LiveTools.applyCourtLevel.
  change (String.eqb "trial" "all") with false. cbn [negb].
  rewrite andb_true_r.
  destruct l as [|i l]; [reflexivity|].
  change (0 <? List.length (i :: l)) with true. cbv iota.
  now rewrite trial_courts_are_state_category.
Qed.

(** X18. On the live server the court level "trial" keeps, of the resolved
    ids, exactly those that are ids of state-category courts of the
    directory: a jurisdiction resolved to the state category passes
    unchanged. *)
Theorem live_trial_level_selects_state_category
  (raw : list RawCourt) (targetCourts : list string) :
  let d := categorizeCourtsByJurisdiction raw in
  LiveTools.applyCourtLevel (Some d) "trial" targetCourts
  = filter (knownId (state d)) targetCourts
  /\ LiveTools.applyCourtLevel (Some d) "trial" (ids (state d))
     = ids (state d).
Proof.
  intros d. unfold d.
  split; [apply applyCourtLevel_trial|].
  rewrite applyCourtLevel_trial. apply filter_all_kept.
  apply forallb_forall. intros i Hi.
  unfold ids in Hi. apply in_map_iff in Hi. destruct Hi as [c [<- Hc]].
  now apply knownId_of_In.
Qed.

Lemma NoDup_map_same {A B} (f : A -> B) (l : list A) (x y : A) :
  NoDup (map f l) -> In x l -> In y l -> f x = f y -> x = y.
Proof.
  induction l as [|z l IH]; simpl; [contradiction|].
  intros Hnd Hx Hy Hf. inversion Hnd as [|? ? Hnot Hnd']; subst.
  destruct Hx as [->|Hx], Hy as [->|Hy]; auto.
  - exfalso. apply Hnot. rewrite Hf. now apply in_map.
  - exfalso. apply Hnot. rewrite <- Hf. now apply in_map.
Qed.

(** X19. On the live server, when the ids of the directory are pairwise
    distinct, the court level "trial" removes every court of a jurisdiction
    resolved to the federal category, and the search is then sent without
    any court parameter, as it is for "all". *)
Theorem live_trial_level_empties_federal (raw : list RawCourt) :
  let d := categorizeCourtsByJurisdiction raw in
  NoDup (ids (all d)) ->
  LiveTools.applyCourtLevel (Some d) "trial" (ids (federal d)) = []
  /\ Tools.courtParam
       (LiveTools.applyCourtLevel (Some d) "trial" (ids (federal d)))
     = None.
Proof.
  intros d Hnd.
  assert (E : LiveTools.applyCourtLevel (Some d) "trial" (ids (federal d)) = []).
  { unfold d. rewrite applyCourtLevel_trial. fold d.
    apply filter_none. apply forallb_forall. intros i Hi.
    apply negb_true_iff.
    destruct (knownId (state d) i) eqn:Hk; [|reflexivity]. exfalso.
    unfold knownId in Hk. apply existsb_exists in Hk.
    destruct Hk as [c' [Hc' Heq]]. apply String.eqb_eq in Heq.
    unfold ids in Hi. apply in_map_iff in Hi. destruct Hi as [c [Hid Hc]].
    pose proof (categorized_category raw FEDERAL) as HF.
    pose proof (categorized_category raw STATE) as HS.
    cbn [category] in HF, HS. fold d in HF, HS.
    rewrite HF in Hc. rewrite HS in Hc'.
    apply filter_In in Hc. apply filter_In in Hc'.
    destruct Hc as [Hin HcF], Hc' as [Hin' HcS].
    assert (c = c').
    { apply (NoDup_map_same id (all d)); auto. congruence. }
    subst c'. rewrite inCategory_federal in HcF.
    rewrite inCategory_state in HcS.
    apply String.eqb_eq in HcF. apply String.eqb_eq in HcS. congruence. }
  rewrite E. split; reflexivity.
Qed.

Lemma live_trial_level_empties_federal_witness :
  LiveTools.applyCourtLevel
    (Some (categorizeCourtsByJurisdiction Generator.sampleAllCourts)) "trial"
    (ids (federal (categorizeCourtsByJurisdiction Generator.sampleAllCourts)))
  = []
  /\ Tools.courtParam
       (LiveTools.applyCourtLevel
          (Some (categorizeCourtsByJurisdiction Generator.sampleAllCourts))
          "trial"
          (ids (federal (categorizeCourtsByJurisdiction
                           Generator.sampleAllCourts))))
     = None.
Proof.
  apply (live_trial_level_empties_federal Generator.sampleAllCourts).
  vm_compute.
  repeat (constructor; [simpl; intuition discriminate|]).
  constructor.
Defined.

Lemma startsWith_includes (s p : string) :
  JS.startsWith s p = true -> JS.includes s p = true.
Proof.
  intros H. destruct s; simpl; now rewrite H.
Qed.

Lemma trial_drops_ca (i : string) :
  JS.startsWith (JS.toLowerCase i) "ca" = true ->
  ResourceTools.keptAtLevel "trial" i = false.
Proof.
  intros H. unfold ResourceTools.keptAtLevel.
  change (String.eqb "trial" "trial") with true. cbv iota.
  rewrite (startsWith_includes _ _ H). cbn [negb].
  now rewrite andb_false_r.
Qed.

Lemma california_code_starts_with_ca (c : CourtInfo) :
  idHasCode ["ca"; "cal"] c = true ->
  JS.startsWith (JS.toLowerCase (id c)) "ca" = true.
Proof.
  unfold idHasCode. cbn [existsb]. rewrite orb_false_r.
  intros H. apply orb_true_iff in H. destruct H as [H|H]; [exact H|].
  destruct (JS.toLowerCase (id c)) as [|a r]; [discriminate H|].
  cbn [JS.startsWith] in H |- *.
  apply andb_true_iff in H. destruct H as [Ha H].
  destruct r as [|b r]; [discriminate H|].
  apply andb_true_iff in H. destruct H as [Hb _].
  now rewrite Ha, Hb.
Qed.

(** X20. On the resource-backed server the court level "trial" never keeps
    an id that begins, in any casing, with "ca": a list of such ids is
    emptied, and the search goes out with no court clause in its query and
    no [court__in] parameter. That is the fate of every list the generated
    mappings hold for "california". *)
Theorem resource_trial_level_empties_california
  (courts : CourtCache) (targetCourts : list string) :
  (forallb (fun i => JS.startsWith (JS.toLowerCase i) "ca") targetCourts
   = true ->
   ResourceTools.applyCourtLevel "trial" targetCourts = []
   /\ courtFilter (ResourceTools.applyCourtLevel "trial" targetCourts)
      = EmptyString
   /\ Tools.courtParam (ResourceTools.applyCourtLevel "trial" targetCourts)
      = None)
  /\ (JS.lookup "california" (Generator.generateMappingResources courts)
      = Some targetCourts ->
      ResourceTools.applyCourtLevel "trial" targetCourts = []).
Proof.
  assert (G : forall l,
             forallb (fun i => JS.startsWith (JS.toLowerCase i) "ca") l = true ->
             ResourceTools.applyCourtLevel "trial" l = []).
  { intros l H. unfold ResourceTools.applyCourtLevel.
    destruct ((0 <? List.length l) && negb (String.eqb "trial" "all")) eqn:E.
    - apply filter_none. apply forallb_forall. intros i Hi.
      apply negb_true_iff, trial_drops_ca.
      exact (proj1 (forallb_forall _ _) H i Hi).
    - destruct l; [reflexivity|discriminate E]. }
  split.
  - intros H. rewrite (G _ H). repeat apply conj; reflexivity.
  - intros H. apply G.
    assert (E : targetCourts
                = ids (filter (idHasCode ["ca"; "cal"]) (all courts))).
    { assert (L : JS.lookup "california"
                    (Generator.generateMappingResources courts)
                  = Some (ids (filter (idHasCode ["ca"; "cal"]) (all courts))))
        by reflexivity.
      congruence. }
    rewrite E. apply forallb_forall. intros i Hi.
    unfold ids in Hi. apply in_map_iff in Hi. destruct Hi as [c [<- Hc]].
    apply filter_In in Hc. now apply california_code_starts_with_ca.
Qed.

Lemma resource_trial_level_empties_california_witness :
  ResourceTools.applyCourtLevel "trial" ["ca9"; "ca2"; "cacd"; "cal"; "cacb"]
  = [].
Proof.
  apply (proj2 (resource_trial_level_empties_california sample
                  ["ca9"; "ca2"; "cacd"; "cal"; "cacb"])).
  reflexivity.
Defined.

(* ------------------------------------------------------------------ *)
(** ** The resource-backed resolver and its suggestions *)

Lemma toLowerChar_keeps_white_space (c : ascii) :
  JS.isWhiteSpace c = true -> JS.toLowerChar c = c.
Proof.
  destruct c as [[] [] [] [] [] [] [] []]; try discriminate; reflexivity.
Qed.

Lemma toLowerCase_keeps_white_space (s : string) :
  hasWhiteSpace s = true -> hasWhiteSpace (JS.toLowerCase s) = true.
Proof.
  induction s as [|c r IH]; [discriminate|].
  cbn [hasWhiteSpace JS.toLowerCase]. intros H.
  apply orb_true_iff in H. apply orb_true_iff.
  destruct H as [H|H].
  - left. now rewrite (toLowerChar_keeps_white_space c H).
  - right. now apply IH.
Qed.

Lemma generated_keys_without_white_space (courts : CourtCache) (k : string) :
  hasWhiteSpace k = true ->
  JS.lookup k (Generator.generateMappingResources courts) = None.
Proof.
  intros Hws.
  destruct (JS.lookup k (Generator.generateMappingResources courts))
    as [v|] eqn:E; [|reflexivity].
  exfalso. apply lookup_In in E.
  apply (in_map fst) in E. cbn [fst] in E.
  vm_compute in E.
  repeat (destruct E as [E|E]; [subst k; discriminate Hws|]).
  contradiction.
Qed.

Lemma inherited_keys_without_white_space (k : string) :
  hasWhiteSpace k = true -> JS.inheritedKey k = false.
Proof.
  intros Hws. destruct (JS.inheritedKey k) eqn:E; [|reflexivity].
  exfalso. unfold JS.inheritedKey in E.
  apply existsb_exists in E. destruct E as [key [Hin Heq]].
  apply String.eqb_eq in Heq. subst key.
  unfold JS.inheritedKeys in Hin. simpl in Hin.
  repeat (destruct Hin as [<-|Hin]; [discriminate Hws|]).
  contradiction.
Qed.

(** X21. The resource manager's lookup ignores the casing of the token but
    nothing else: with the generated mappings, a token that holds a white
    space character (as in "New York") is never resolved and the server
    raises the unrecognized-jurisdiction error for it, whatever the
    directory. *)
Theorem resource_resolver_ignores_case_not_spaces
  (resource : CourtResourceManager.CourtMappings) (courts : CourtCache)
  (jurisdiction : string) :
  CourtResourceManager.resolveJurisdiction resource (JS.toLowerCase jurisdiction)
  = CourtResourceManager.resolveJurisdiction resource jurisdiction
  /\ (hasWhiteSpace jurisdiction = true ->
      ResourceServer.resolveJurisdiction
        (Some (Generator.generateMappingResources courts)) jurisdiction
      = unrecognized jurisdiction).
Proof.
  split.
  - unfold CourtResourceManager.resolveJurisdiction.
    now rewrite toLowerCase_idempotent.
  - intros Hws. apply toLowerCase_keeps_white_space in Hws.
    unfold ResourceServer.resolveJurisdiction,
      CourtResourceManager.resolveJurisdiction.
    now rewrite (generated_keys_without_white_space courts _ Hws),
      (inherited_keys_without_white_space _ Hws).
Qed.

Lemma resource_resolver_ignores_case_not_spaces_witness :
  ResourceServer.resolveJurisdiction
    (Some (Generator.generateMappingResources sample)) "New York"
  = unrecognized "New York".
Proof.
  apply (proj2 (resource_resolver_ignores_case_not_spaces None sample
                  "New York")).
  reflexivity.
Defined.

Lemma generated_key_resolves (courts : CourtCache) (s : string) :
  In s (map fst (Generator.generateMappingResources courts)) ->
  exists courtIds,
    JS.lookup s (Generator.generateMappingResources courts) = Some courtIds
    /\ CourtResourceManager.resolveJurisdiction
         (Some (Generator.generateMappingResources courts)) s
       = CourtResourceManager.Arr courtIds.
Proof.
  intros H.
  assert (K : In s (map fst (Generator.categoryMappings courts
                             ++ flat_map (variationEntries courts)
                                  Generator.stateVariations)))
    by exact H.
  vm_compute in K.
  repeat (destruct K as [K|K];
          [subst s; eexists; split; reflexivity|]).
  contradiction.
Qed.

(** X22. With the generated mappings the resource manager suggests at most
    5 keys; each holds the lower-cased input as a substring and is a key of
    the mappings that the manager's own [resolveJurisdiction] finds again,
    with the list stored under it. *)
Theorem resource_suggestions_are_generated_keys
  (courts : CourtCache) (input : string) :
  let resource := Some (Generator.generateMappingResources courts) in
  let suggestions :=
    CourtResourceManager.suggestSimilarJurisdictions resource input in
  List.length suggestions <= 5
  /\ Forall (fun s =>
               JS.includes s (JS.toLowerCase input) = true
               /\ In s (ResourceTools.getAvailableJurisdictions resource)
               /\ exists courtIds,
                   JS.lookup s (Generator.generateMappingResources courts)
                   = Some courtIds
                   /\ CourtResourceManager.resolveJurisdiction resource s
                      = CourtResourceManager.Arr courtIds) suggestions.
Proof.
  intros resource suggestions.
  unfold suggestions, resource, CourtResourceManager.suggestSimilarJurisdictions.
  split; [apply firstn_le_length|].
  apply Forall_forall. intros s Hs.
  apply firstn_incl in Hs. apply filter_In in Hs. destruct Hs as [Hkey Hinc].
  repeat apply conj; [exact Hinc|exact Hkey|].
  now apply generated_key_resolves.
Qed.

(* ------------------------------------------------------------------ *)
(** ** The two state lookups side by side *)

Lemma filter_swap {A} (f g : A -> bool) (l : list A) :
  filter f (filter g l) = filter g (filter f l).
Proof.
  induction l as [|x l IH]; simpl; [reflexivity|].
  destruct (f x) eqn:Ef, (g x) eqn:Eg; simpl;
    rewrite ?Ef, ?Eg, IH; reflexivity.
Qed.

Lemma hasJurisdiction_state (c : CourtInfo) :
  GeneratorFiles.hasJurisdiction "ST" c = inCategory STATE c.
Proof.
  unfold GeneratorFiles.hasJurisdiction. now rewrite inCategory_state.
Qed.

(** X23. On a categorised directory, and for a state name that has codes,
    the live state lookup returns exactly the state-category part of what
    the generator's lookup returns; it is the [state] list of the
    [court_types] of the file the generator writes for that state. *)
Theorem live_state_lookup_is_state_part_of_generator
  (raw : list RawCourt) (stateName : string) (codes : list string) :
  let d := categorizeCourtsByJurisdiction raw in
  stateCodes stateName = Some codes ->
  exists found,
    Generator.findCourtsByState stateName d = Some found
    /\ Live.findCourtsByState (Some d) stateName
       = Some (ids (filter (inCategory STATE) found))
    /\ Live.findCourtsByState (Some d) stateName
       = Some (GeneratorFiles.types_state
                 (GeneratorFiles.stateFile stateName found)).
Proof.
  intros d Hcodes.
  exists (filter (idHasCode codes) (all d)).
  unfold Generator.findCourtsByState, Live.findCourtsByState.
  rewrite Hcodes.
  assert (E : filter (idHasCode codes) (state d)
              = filter (inCategory STATE) (filter (idHasCode codes) (all d))).
  { change (state d) with (category STATE d).
    unfold d. rewrite categorized_category. apply filter_swap. }
  repeat apply conj; [reflexivity|now rewrite E|].
  cbn [GeneratorFiles.stateFile GeneratorFiles.types_state].
  rewrite E. do 2 f_equal. apply filter_ext. intros c.
  symmetry. apply hasJurisdiction_state.
Qed.

Lemma live_state_lookup_is_state_part_of_generator_witness :
  exists found,
    Generator.findCourtsByState "california"
      (categorizeCourtsByJurisdiction Generator.sampleAllCourts) = Some found
    /\ Live.findCourtsByState
         (Some (categorizeCourtsByJurisdiction Generator.sampleAllCourts))
         "california"
       = Some (ids (filter (inCategory STATE) found))
    /\ Live.findCourtsByState
         (Some (categorizeCourtsByJurisdiction Generator.sampleAllCourts))
         "california"
       = Some (GeneratorFiles.types_state
                 (GeneratorFiles.stateFile "california" found)).
Proof.
  apply (live_state_lookup_is_state_part_of_generator
           Generator.sampleAllCourts "california" ["ca"; "cal"]).
  reflexivity.
Defined.
